(** * Mazzura backend: the outfit selector of [main.py]

    A shallow embedding of [generate_outfit] (POST /api/outfits/generate)
    and of the Python operations it relies on, followed by the properties
    of the selection heuristic.

    Documents are Python dicts, modelled as [gmap string value]; the try
    block is an error monad threaded through the document store. The
    builtins [str.lower] and [str] are parameters. *)

From stdpp Require Import gmap strings list fin_maps pretty.
From Stdlib Require Import ZArith String Ascii.

Local Open Scope string_scope.
Local Open Scope list_scope.
Local Open Scope Z_scope.

(** ** Python values and builtins *)

Module Py.

(** Text is held as its UTF-8 bytes: equality, [in] and [<] on the bytes are
    those of Python on the characters. *)

(** [str.lower] on ASCII text: [A-Z] become [a-z]. *)
Definition lower_ascii (c : ascii) : ascii :=
  let n := N_of_ascii c in
  if ((65 <=? n) && (n <=? 90))%N then ascii_of_N (n + 32) else c.

Fixpoint lower_bytes (s : string) : string :=
  match s with
  | EmptyString => EmptyString
  | String c s' => String (lower_ascii c) (lower_bytes s')
  end.

Fixpoint is_ascii (s : string) : bool :=
  match s with
  | EmptyString => true
  | String c s' => (N_of_ascii c <? 128)%N && is_ascii s'
  end.

(** [str.lower] follows the Unicode tables, which are not in the sources:
    it is a parameter. What is used of it: it keeps the empty text, and
    only the empty text, empty, and on ASCII text it is [lower_bytes]. *)
Class Lower := {
  lower : string → string;
  lower_empty : lower "" = "";
  lower_nonempty s : lower s = "" → s = "";
  lower_on_ascii s : is_ascii s = true → lower s = lower_bytes s;
}.

(** On examples in ASCII text, [lower_bytes] stands for [str.lower]. *)
Definition ascii_lower : Lower.
Proof.
  refine {| lower := lower_bytes |}; [reflexivity| |reflexivity].
  intros [|c s]; [reflexivity|discriminate].
Defined.

(** [str.lower] on text in ASCII and Latin-1 letters: the two bytes of
    [À-Þ] (but [×]) become those of [à-þ]. *)
Definition latin_capital (c d : ascii) : bool :=
  ((N_of_ascii c =? 195) && (128 <=? N_of_ascii d) && (N_of_ascii d <=? 158)
   && negb (N_of_ascii d =? 151))%N.

Fixpoint lower_latin (s : string) : string :=
  match s with
  | EmptyString => EmptyString
  | String c s1 =>
      match s1 with
      | String d s2 =>
          if latin_capital c d
          then String c (String (ascii_of_N (N_of_ascii d + 32)) (lower_latin s2))
          else String (lower_ascii c) (lower_latin s1)
      | EmptyString => String (lower_ascii c) EmptyString
      end
  end.

Definition latin_lower : Lower.
Proof.
  refine {| lower := lower_latin |}; [reflexivity| |].
  - intros [|c [|d s]]; simpl; [reflexivity|discriminate|].
    destruct (latin_capital c d); discriminate.
  - intros s. induction s as [|c s IH]; [reflexivity|].
    simpl. intros [Hc Hs]%andb_true_iff. rewrite <- (IH Hs).
    destruct s as [|d s]; [reflexivity|].
    unfold latin_capital. apply N.ltb_lt in Hc.
    destruct (N.eqb_spec (N_of_ascii c) 195) as [Heq|_]; [|reflexivity].
    rewrite Heq in Hc. lia.
Defined.

(** The characters of a text: a byte [10xxxxxx] continues the character
    before it. *)
Definition continuation (c : ascii) : bool :=
  let n := N_of_ascii c in ((128 <=? n) && (n <? 192))%N.

Fixpoint chars (s : string) : list string :=
  match s with
  | EmptyString => []
  | String c s' =>
      let ts := chars s' in
      match s' with
      | String d _ =>
          if continuation d then
            match ts with
            | t :: ts' => String c t :: ts'
            | [] => [String c EmptyString]
            end
          else String c EmptyString :: ts
      | EmptyString => String c EmptyString :: ts
      end
  end.

(** [contains a b] is Python's [a in b] on two strings. *)
Fixpoint contains (a b : string) : bool :=
  String.prefix a b ||
  match b with
  | EmptyString => false
  | String _ b' => contains a b'
  end.

(** The values found in stored documents: [None], [str], [int], a list of
    [str] (tags, preferred colours) and the store's [ObjectId], kept as
    its hexadecimal text. Other kinds ([float], [bool], dates) are not
    represented: [Wardrobeitem] gives none of them to the attributes the
    selector reads, and the others are only copied. *)
Inductive value :=
  | VNone
  | VStr (s : string)
  | VInt (n : Z)
  | VList (l : list string)
  | VObjectId (oid : string).

#[global] Instance value_eq_dec : EqDecision value.
Proof. solve_decision. Defined.

(** Truth value of an object, as tested by [if], [or] and [and]. *)
Definition truthy (v : value) : bool :=
  match v with
  | VNone => false
  | VStr s => negb (String.eqb s "")
  | VInt n => negb (n =? 0)
  | VList l => match l with [] => false | _ :: _ => true end
  | VObjectId _ => true
  end.

(** [a or b]. *)
Definition or_ (a b : value) : value := if truthy a then a else b.

(** Exceptions that are not [HTTPException]. *)
Inductive exn :=
  | AttributeError
  | TypeError
  | IndexError
  | StoreError (msg : string).

(** The [detail] of an [HTTPException]: a literal, or [str(e)]. *)
Inductive detail :=
  | Text (s : string)
  | StrOf (e : exn).

Inductive raised :=
  | HTTPException (status_code : Z) (d : detail)
  | Exception (e : exn).

Inductive res (A : Type) :=
  | Ok (a : A)
  | Raise (r : raised).
Arguments Ok {A} a.
Arguments Raise {A} r.

#[global] Instance res_ret : MRet res := λ A a, Ok a.
#[global] Instance res_bind : MBind res := λ A B f m,
  match m with
  | Ok a => f a
  | Raise r => Raise r
  end.

(** [d.get(k)]: [None] when the key is missing. *)
Definition get (d : gmap string value) (k : string) : value :=
  default VNone (d !! k).

(** [v.lower()]: only [str] has the method. *)
Definition str_lower `{Lower} (v : value) : res string :=
  match v with
  | VStr s => Ok (lower s)
  | _ => Raise (Exception AttributeError)
  end.

(** Iteration [for t in v]: a list yields its elements, a [str] its
    characters; the other values are not iterable. *)
Definition iter (v : value) : res (list string) :=
  match v with
  | VList l => Ok l
  | VStr s => Ok (chars s)
  | _ => Raise (Exception TypeError)
  end.

(** Unary minus. *)
Definition neg (v : value) : res value :=
  match v with
  | VInt n => Ok (VInt (- n))
  | _ => Raise (Exception TypeError)
  end.

(** [a < b] on lists of [str]. *)
Fixpoint list_lt (a b : list string) : bool :=
  match a, b with
  | _, [] => false
  | [], _ :: _ => true
  | x :: a', y :: b' => if String.eqb x y then list_lt a' b' else String.ltb x y
  end.

(** [a < b]: defined between two values of one ordered type. *)
Definition lt (a b : value) : res bool :=
  match a, b with
  | VInt m, VInt n => Ok (m <? n)
  | VStr s, VStr t => Ok (String.ltb s t)
  | VList l, VList k => Ok (list_lt l k)
  | VObjectId o, VObjectId p => Ok (String.ltb o p)
  | _, _ => Raise (Exception TypeError)
  end.

(** [sorted(l, key=key)]: the keys are computed first, in list order; the
    sort is stable and compares keys with [<] only. *)
Fixpoint insort {A} (x : value * A) (l : list (value * A)) : res (list (value * A)) :=
  match l with
  | [] => Ok [x]
  | y :: l' =>
      b ← lt y.1 x.1;
      if b : bool then r ← insort x l'; Ok (y :: r) else Ok (x :: y :: l')
  end.

Fixpoint sort_keyed {A} (l : list (value * A)) : res (list (value * A)) :=
  match l with
  | [] => Ok []
  | x :: l' => s ← sort_keyed l'; insort x s
  end.

Definition sorted {A} (l : list A) (key : A → res value) : res (list A) :=
  ks ← mapM (λ x, k ← key x; Ok (k, x)) l;
  s ← sort_keyed ks;
  Ok (s.*2).

(** [l[0]]. *)
Definition first {A} (l : list A) : res A :=
  match l with
  | x :: _ => Ok x
  | [] => Raise (Exception IndexError)
  end.

(** [[i for i in l if p(i)]]: the condition is evaluated on every element,
    in order. *)
Fixpoint comprehension {A} (p : A → res bool) (l : list A) : res (list A) :=
  match l with
  | [] => Ok []
  | i :: l' =>
      b ← p i;
      r ← comprehension p l';
      Ok (if b : bool then i :: r else r)
  end.

(** [any(p(t) for t in l)]. *)
Definition any {A} (p : A → bool) (l : list A) : bool := existsb p l.

(** Truth value of an [Optional[str]] and [o or d]. *)
Definition truthy_str (o : option string) : bool :=
  match o with
  | Some s => negb (String.eqb s "")
  | None => false
  end.

Definition or_str (o : option string) (d : string) : string :=
  match o with
  | Some s => if String.eqb s "" then d else s
  | None => d
  end.

End Py.
Export Py.

(** ** Documents and models ([schemas.py]) *)

Abbreviation item := (gmap string value).

(** [class OutfitRequest(BaseModel)] *)
Record OutfitRequest := {
  email : string;
  mood : option string;
  weather : option string;
  event : option string;
}.

(** [class Outfit(BaseModel)] *)
Record Outfit := {
  owner_email : string;
  title : string;
  items : list item;
  outfit_mood : option string;
  outfit_weather : option string;
  outfit_event : option string;
}.

(** The dict returned by [generate_outfit]. *)
Record Response := {
  id : string;
  response_items : list item;
  response_title : string;
}.

(** ** The document store ([database.py], not part of the sources)

    [get_documents] reads a collection through a filter document;
    [create_document] inserts a model and returns the new identifier.
    Either call may raise. *)

Class Database (DB : Type) := {
  get_documents : string → item → DB → exn + list item;
  create_document : string → Outfit → DB → DB * (exn + string);
}.

(** ** [generate_outfit] *)

Section generate.
Context `{Lower} `{Database DB}.
(** [str(v)], Python's conversion of a value to text. *)
Variable str : value → string.

(** Lines 159-177 are the closure [pick_from]; it reads [req]. *)

(** The condition of the list comprehension of line 165. *)
Definition mood_match (mood : string) (i : item) : res bool :=
  c ← str_lower (or_ (get i "color") (VStr ""));
  if contains c mood then Ok true
  else
    tags ← iter (default (VList []) (i !! "tags"));
    Ok (any (λ t, contains (lower t) mood) tags).

(** Lines 163-167; [None] when control falls through. *)
Definition mood_bias (req : OutfitRequest) (cat_list : list item) : res (option item) :=
  if truthy_str (mood req) then
    let mood := lower (default "" (mood req)) in
    colored ← comprehension (mood_match mood) cat_list;
    Ok (head colored)
  else Ok None.

(** Lines 169-176; [None] when control falls through. *)
Definition weather_bias (req : OutfitRequest) (cat_list : list item) : res (option item) :=
  if truthy_str (weather req) then
    let w := lower (default "" (weather req)) in
    if bool_decide (w ∈ ["cold"; "chilly"]) then
      scored ← sorted cat_list (λ x, neg (or_ (get x "warmth") (VInt 0)));
      x ← first scored; Ok (Some x)
    else if bool_decide (w ∈ ["hot"; "warm"]) then
      scored ← sorted cat_list (λ x, Ok (or_ (get x "warmth") (VInt 0)));
      x ← first scored; Ok (Some x)
    else Ok None
  else Ok None.

Definition pick_from (req : OutfitRequest) (cat_list : list item) : res (option item) :=
  if bool_decide (cat_list = []) then Ok None
  else
    r ← mood_bias req cat_list;
    match r with
    | Some i => Ok (Some i)
    | None =>
        r ← weather_bias req cat_list;
        match r with
        | Some i => Ok (Some i)
        | None => x ← first cat_list; Ok (Some x)
        end
    end.

(** Lines 154-157: the loop that fills [by_cat]. *)
Fixpoint categorize (by_cat : gmap string (list item)) (items : list item)
    : res (gmap string (list item)) :=
  match items with
  | [] => Ok by_cat
  | it :: rest =>
      cat ← str_lower (or_ (get it "category") (VStr ""));
      categorize (<[cat := default [] (by_cat !! cat) ++ [it]]> by_cat) rest
  end.

(** The dict comprehension of lines 183 and 189. *)
Definition snapshot (sel : item) : item :=
  map_imap (λ k v,
    if bool_decide (k ≠ "_id")
    then Some (if bool_decide (k = "_id") then VStr (str v) else v)
    else None) sel.

(** [if sel:] on the result of [pick_from]. *)
Definition truthy_pick (sel : option item) : bool :=
  match sel with
  | Some d => negb (bool_decide (d = ∅))
  | None => false
  end.

(** Lines 180-183: the loop over the three slots. *)
Fixpoint slots (req : OutfitRequest) (by_cat : gmap string (list item))
    (cats : list string) (selected : list item) : res (list item) :=
  match cats with
  | [] => Ok selected
  | cat :: rest =>
      sel ← pick_from req (default [] (by_cat !! cat));
      slots req by_cat rest
        (if truthy_pick sel then selected ++ [snapshot (default ∅ sel)] else selected)
  end.

(** Lines 186-189. *)
Definition outerwear (req : OutfitRequest) (by_cat : gmap string (list item))
    (selected : list item) : res (list item) :=
  if truthy_str (weather req)
     && bool_decide (lower (default "" (weather req)) ∈ ["cold"; "chilly"])
  then
    outer ← pick_from req (default [] (by_cat !! "outerwear"));
    Ok (if truthy_pick outer then selected ++ [snapshot (default ∅ outer)] else selected)
  else Ok selected.

(** The try block runs in the store: a state and error monad. *)
Definition M (A : Type) : Type := DB → DB * res A.

#[local] Instance M_ret : MRet M := λ A a db, (db, Ok a).
#[local] Instance M_bind : MBind M := λ A B f m db,
  match m db with
  | (db', Ok a) => f a db'
  | (db', Raise r) => (db', Raise r)
  end.

Definition raise {A} (r : raised) : M A := λ db, (db, Raise r).
Definition pure {A} (r : res A) : M A := λ db, (db, r).

Definition of_store {A} (r : exn + A) : res A :=
  match r with
  | inl e => Raise (Exception e)
  | inr a => Ok a
  end.

Definition find (collection : string) (filter_dict : item) : M (list item) :=
  λ db, (db, of_store (get_documents collection filter_dict db)).

Definition insert_one (collection : string) (doc : Outfit) : M string :=
  λ db, let '(db', r) := create_document collection doc db in (db', of_store r).

(** [except HTTPException: raise] and
    [except Exception as e: raise HTTPException(500, str(e))]. *)
Definition try_except {A} (body : M A) : M A := λ db,
  match body db with
  | (db', Raise (Exception e)) => (db', Raise (HTTPException 500 (StrOf e)))
  | r => r
  end.

Definition generate_outfit (req : OutfitRequest) : M Response :=
  try_except (
    items ← find "wardrobeitem" {[ "owner_email" := VStr (email req) ]};
    if bool_decide (items = []) then
      raise (HTTPException 404 (Text "No wardrobe items found"))
    else
      by_cat ← pure (categorize ∅ items);
      selected ← pure (slots req by_cat ["top"; "bottom"; "footwear"] []);
      selected ← pure (outerwear req by_cat selected);
      if bool_decide (selected = []) then
        raise (HTTPException 400 (Text "Could not compose an outfit from wardrobe"))
      else
        let outfit_doc := {|
          owner_email := email req;
          title := "Auto outfit - " +:+ or_str (mood req) "style"
                     +:+ " / " +:+ or_str (weather req) "weather";
          items := selected;
          outfit_mood := mood req;
          outfit_weather := weather req;
          outfit_event := event req;
        |} in
        inserted_id ← insert_one "outfit" outfit_doc;
        mret {| id := inserted_id;
                response_items := selected;
                response_title := title outfit_doc |}).

End generate.

(** ** An in-memory store

    Two collections held as lists; identifiers count the outfits stored so
    far. It is the store the examples run against. *)

Record MemDB := {
  wardrobeitem : list item;
  outfit : list Outfit;
}.

Definition matches (filter_dict doc : item) : bool :=
  forallb (λ kv, bool_decide (doc !! kv.1 = Some kv.2)) (map_to_list filter_dict).

#[export] Instance mem_database : Database MemDB := {
  get_documents collection filter_dict db :=
    inr (if String.eqb collection "wardrobeitem"
         then filter (λ doc, matches filter_dict doc = true) (wardrobeitem db)
         else []);
  create_document collection doc db :=
    if String.eqb collection "outfit"
    then ({| wardrobeitem := wardrobeitem db; outfit := outfit db ++ [doc] |},
          inr ("outfit-" +:+ pretty (List.length (outfit db))))
    else (db, inl (StoreError "unknown collection"));
}.

(** A rendering of values as text, for the examples. *)
Definition str_text (v : value) : string :=
  match v with
  | VNone => "None"
  | VStr s => s
  | VInt n => pretty n
  | VList l => String.concat ", " l
  | VObjectId oid => oid
  end.

(** ** The selection rule in the words of the specification

    What the selector reads from a wardrobe item: its category and colour
    as text (missing or [None]: the empty text), its tags (missing: none)
    and its warmth (missing or [None]: 0). *)

Section words.
Context `{Lower}.

Definition text_of (o : option value) : string :=
  match o with
  | Some (VStr s) => s
  | _ => ""
  end.

Definition category_of (i : item) : string := lower (text_of (i !! "category")).
Definition color_of (i : item) : string := lower (text_of (i !! "color")).

Definition tags_of (i : item) : list string :=
  match i !! "tags" with
  | Some (VList l) => l
  | _ => []
  end.

Definition warmth_of (i : item) : Z :=
  match i !! "warmth" with
  | Some (VInt n) => n
  | _ => 0
  end.

(** A document has the types of [Wardrobeitem] on the attributes the
    selector reads: [category] and [color] are text, [None] or missing,
    [tags] is a list of text or missing, [warmth] is an integer, [None] or
    missing. *)
Definition text_or_none (o : option value) : bool :=
  match o with
  | None | Some VNone | Some (VStr _) => true
  | _ => false
  end.

Definition Wardrobeitem_ok (i : item) : bool :=
  text_or_none (i !! "category")
  && text_or_none (i !! "color")
  && match i !! "tags" with None | Some (VList _) => true | _ => false end
  && match i !! "warmth" with None | Some VNone | Some (VInt _) => true | _ => false end.

(** The bucket of a category label. *)
Definition bucket (items : list item) (cat : string) : list item :=
  filter (λ it, category_of it = cat) items.

(** A mood match: the lower-cased colour, or some lower-cased tag, occurs
    in the mood text. *)
Definition is_mood_match (mood_text : string) (i : item) : bool :=
  contains (color_of i) mood_text
  || existsb (λ t, contains (lower t) mood_text) (tags_of i).

(** The first item among those whose key is least. *)
Fixpoint first_min {A} (f : A → Z) (l : list A) : option A :=
  match l with
  | [] => None
  | x :: l' =>
      match first_min f l' with
      | Some y => if f y <? f x then Some y else Some x
      | None => Some x
      end
  end.

Definition is_cold (w : option string) : bool :=
  match w with
  | Some w => bool_decide (lower w ∈ ["cold"; "chilly"])
  | None => false
  end.

Definition is_hot (w : option string) : bool :=
  match w with
  | Some w => bool_decide (lower w ∈ ["hot"; "warm"])
  | None => false
  end.

(** The weather rule: warmest first when cold, coolest first when hot. *)
Definition weather_rule (w : option string) (bucket : list item) : option item :=
  if is_cold w then first_min (λ x, - warmth_of x) bucket
  else if is_hot w then first_min warmth_of bucket
  else None.

(** The mood rule; a mood that is [None] or the empty text gives no match. *)
Definition mood_rule (m : option string) (bucket : list item) : option item :=
  if truthy_str m then List.find (is_mood_match (lower (default "" m))) bucket
  else None.

(** Pick-one: a mood match, else the weather rule, else the first item. *)
Definition Pick_one (req : OutfitRequest) (bucket : list item) : option item :=
  match mood_rule (mood req) bucket with
  | Some x => Some x
  | None =>
      match weather_rule (weather req) bucket with
      | Some x => Some x
      | None => head bucket
      end
  end.

(** Assemble slots: one pick per non-empty bucket among top, bottom and
    footwear, in that order, then one from outerwear when the weather is
    cold or chilly. *)
Definition picks (req : OutfitRequest) (items : list item) : list item :=
  option_list (Pick_one req (bucket items "top"))
  ++ option_list (Pick_one req (bucket items "bottom"))
  ++ option_list (Pick_one req (bucket items "footwear"))
  ++ (if is_cold (weather req)
      then option_list (Pick_one req (bucket items "outerwear"))
      else []).

(** Lines 154-189 of [generate_outfit]: from the fetched items to the
    selection. *)
Definition assemble (str : value → string) (req : OutfitRequest)
    (items : list item) : res (list item) :=
  by_cat ← categorize ∅ items;
  selected ← slots str req by_cat ["top"; "bottom"; "footwear"] [];
  outerwear str req by_cat selected.

(** A key-item pair of [sorted] whose key is the integer [f] of the item. *)
Definition keyed {A} (f : A → Z) (p : value * A) : Prop := p.1 = VInt (f p.2).

(** The model built on line 194. *)
Definition outfit_doc (req : OutfitRequest) (selected : list item) : Outfit := {|
  owner_email := email req;
  title := "Auto outfit - " +:+ or_str (mood req) "style"
             +:+ " / " +:+ or_str (weather req) "weather";
  items := selected;
  outfit_mood := mood req;
  outfit_weather := weather req;
  outfit_event := event req;
|}.

(** The outcome of the insert of line 202, as the handler reports it. *)
Definition reply `{Database DB} (req : OutfitRequest) (selected : list item) (db : DB) : DB * res Response :=
  match create_document "outfit" (outfit_doc req selected) db with
  | (db', inr inserted_id) =>
      (db', Ok {| id := inserted_id;
                  response_items := selected;
                  response_title := title (outfit_doc req selected) |})
  | (db', inl e) => (db', Raise (HTTPException 500 (StrOf e)))
  end.

(** The query of line 149. *)
Definition fetched `{Database DB} (req : OutfitRequest) (db : DB) : exn + list item :=
  get_documents "wardrobeitem" {[ "owner_email" := VStr (email req) ]} db.

(** Every item of a selection is the snapshot of one of the given items. *)
Definition snapshots_of (str : value → string) (items selected : list item) : Prop :=
  Forall (λ s, ∃ x, x ∈ items ∧ s = snapshot str x) selected.

End words.

(** ** An example wardrobe *)

Definition ana : string := "ana@example.com".

Definition red_tee : item :=
  {[ "_id" := VObjectId "65f0c0de0000000000000001"; "owner_email" := VStr ana;
     "name" := VStr "tee"; "category" := VStr "top"; "color" := VStr "red";
     "tags" := VList ["casual"]; "warmth" := VInt 2 ]}.

Definition blue_shirt : item :=
  {[ "_id" := VObjectId "65f0c0de0000000000000002"; "owner_email" := VStr ana;
     "name" := VStr "shirt"; "category" := VStr "Top"; "color" := VStr "Blue";
     "tags" := VList []; "warmth" := VInt 8 ]}.

(** No colour. *)
Definition plain_vest : item :=
  {[ "_id" := VObjectId "65f0c0de0000000000000003"; "owner_email" := VStr ana;
     "name" := VStr "vest"; "category" := VStr "top";
     "tags" := VList ["layer"]; "warmth" := VInt 5 ]}.

(** No warmth. *)
Definition jeans : item :=
  {[ "_id" := VObjectId "65f0c0de0000000000000004"; "owner_email" := VStr ana;
     "name" := VStr "jeans"; "category" := VStr "bottom"; "color" := VStr "black";
     "tags" := VList []; "warmth" := VNone ]}.

Definition parka : item :=
  {[ "_id" := VObjectId "65f0c0de0000000000000005"; "owner_email" := VStr ana;
     "name" := VStr "parka"; "category" := VStr "outerwear"; "color" := VStr "grey";
     "tags" := VList []; "warmth" := VInt 9 ]}.

Definition scarf : item :=
  {[ "_id" := VObjectId "65f0c0de0000000000000006"; "owner_email" := VStr ana;
     "name" := VStr "scarf"; "category" := VStr "accessory"; "color" := VStr "green";
     "tags" := VList []; "warmth" := VInt 3 ]}.

Definition closet : MemDB :=
  {| wardrobeitem := [red_tee; blue_shirt; plain_vest; jeans; parka; scarf];
     outfit := [] |}.

Definition accessories : MemDB := {| wardrobeitem := [scarf]; outfit := [] |}.

Definition bare : MemDB := {| wardrobeitem := []; outfit := [] |}.

(** A document whose colour is a number, which [Wardrobeitem] rules out. *)
Definition odd_tee : item := <["color" := VInt 3]> red_tee.

(** Items with a colour and a category in Latin-1 letters. *)
Definition ecru_shirt : item :=
  {[ "_id" := VObjectId "65f0c0de0000000000000007"; "owner_email" := VStr ana;
     "name" := VStr "chemise"; "category" := VStr "top"; "color" := VStr "écru";
     "tags" := VList []; "warmth" := VInt 2 ]}.

Definition summer_hat : item :=
  {[ "_id" := VObjectId "65f0c0de0000000000000008"; "owner_email" := VStr ana;
     "name" := VStr "chapeau"; "category" := VStr "ÉTÉ"; "color" := VStr "beige";
     "tags" := VList []; "warmth" := VInt 1 ]}.

Definition request (m w : option string) : OutfitRequest :=
  {| email := ana; mood := m; weather := w; event := None |}.

(** The answers of the in-memory store on the example closet. *)
Definition stored (req : OutfitRequest) (selected : list item) : MemDB :=
  {| wardrobeitem := wardrobeitem closet; outfit := [outfit_doc req selected] |}.

Definition blue_cold : OutfitRequest := request (Some "blue") (Some "cold").

Definition blue_cold_response : Response :=
  {| id := "outfit-0";
     response_items := [delete "_id" blue_shirt; delete "_id" jeans; delete "_id" parka];
     response_title := "Auto outfit - blue / cold" |}.

Definition bold : OutfitRequest := request (Some "bold") None.

Definition bold_response : Response :=
  {| id := "outfit-0";
     response_items := [delete "_id" plain_vest; delete "_id" jeans];
     response_title := "Auto outfit - bold / weather" |}.

Definition empty_mood : OutfitRequest := request (Some "") None.

Definition empty_mood_response : Response :=
  {| id := "outfit-0";
     response_items := [delete "_id" red_tee; delete "_id" jeans];
     response_title := "Auto outfit - style / weather" |}.


(** ** The readers: [list_wardrobe] and [get_profile]

    Both rename the store's ["_id"] to a textual ["id"]. [dict.pop] raises
    [KeyError] on a missing key, and [str] of that exception is the
    quoted key. *)

Inductive caught :=
  | KeyError (key : string)
  | Other (e : exn).

(** [str(e)] as the [detail] of the 500 reply. *)
Definition str_caught (c : caught) : detail :=
  match c with
  | KeyError key => Text ("'" +:+ key +:+ "'")
  | Other e => StrOf e
  end.

(** [d.pop(k)]: the value and the dict without the key. *)
Definition pop (d : item) (k : string) : caught + value * item :=
  match d !! k with
  | Some v => inr (v, delete k d)
  | None => inl (KeyError k)
  end.

(** [d["id"] = str(d.pop("_id"))] (lines 107 and 131). *)
Definition expose_id (str : value → string) (d : item) : caught + item :=
  match pop d "_id" with
  | inl c => inl c
  | inr (v, d') => inr (<["id" := VStr (str v)]> d')
  end.

(** What the renaming does to a document [d], giving [r]. *)
Definition exposed (str : value → string) (d r : item) : Prop :=
  r !! "_id" = None
  ∧ (∃ v, d !! "_id" = Some v ∧ r !! "id" = Some (VStr (str v)))
  ∧ ∀ k, k ≠ "_id" → k ≠ "id" → r !! k = d !! k.

(** Lines 129-132: the loop that fills [result]. *)
Fixpoint expose_all (str : value → string) (docs result : list item)
    : caught + list item :=
  match docs with
  | [] => inr result
  | d :: rest =>
      match expose_id str d with
      | inl c => inl c
      | inr d' => expose_all str rest (result ++ [d'])
      end
  end.

(** [list_wardrobe]: every exception becomes a 500. *)
Definition list_wardrobe `{Database DB} (str : value → string) (email : string)
    (db : DB) : res (list item) :=
  match get_documents "wardrobeitem" {[ "owner_email" := VStr email ]} db with
  | inl e => Raise (HTTPException 500 (str_caught (Other e)))
  | inr docs =>
      match expose_all str docs [] with
      | inl c => Raise (HTTPException 500 (str_caught c))
      | inr result => Ok result
      end
  end.

(** [get_documents(collection, filter, limit=n)]. *)
Class Database_limit (DB : Type) := {
  get_documents_limit : string → item → nat → DB → exn + list item;
}.

(** [get_profile]: the 404 passes the handler, any other exception becomes
    a 500. *)
Definition get_profile `{Database_limit DB} (str : value → string) (email : string)
    (db : DB) : res item :=
  match get_documents_limit "userprofile" {[ "email" := VStr email ]} 1 db with
  | inl e => Raise (HTTPException 500 (str_caught (Other e)))
  | inr [] => Raise (HTTPException 404 (Text "Profile not found"))
  | inr (doc :: _) =>
      if bool_decide (is_Some (doc !! "_id")) then
        match expose_id str doc with
        | inl c => Raise (HTTPException 500 (str_caught c))
        | inr doc' => Ok doc'
        end
      else Ok doc
  end.

(** An in-memory profile collection. *)
Record ProfileDB := {
  userprofile : list item;
}.

#[export] Instance profile_database : Database_limit ProfileDB := {
  get_documents_limit collection filter_dict limit db :=
    inr (if String.eqb collection "userprofile"
         then take limit (filter (λ doc, matches filter_dict doc = true) (userprofile db))
         else []);
}.

Definition ana_profile : item :=
  {[ "_id" := VObjectId "65f0c0de00000000000000a1"; "name" := VStr "Ana";
     "email" := VStr ana; "vibe" := VStr "bold"; "preferred_colors" := VList ["blue"] ]}.

Definition profiles : ProfileDB := {| userprofile := [ana_profile] |}.

(** A closet one of whose documents has lost its ["_id"]. *)
Definition torn_closet : MemDB :=
  {| wardrobeitem := [red_tee; delete "_id" jeans; parka]; outfit := [] |}.

(** The category of a document can be lower-cased: it is text, or it is
    missing or falsy and replaced by the empty text. *)
Definition readable (o : option value) : bool :=
  match o with
  | Some (VStr _) | None => true
  | Some v => negb (truthy v)
  end.

(** The slots of an outfit, in order. *)
Definition slot_labels : list string := ["top"; "bottom"; "footwear"; "outerwear"].

(** A result that is not a raised [HTTPException]. *)
Definition no_http {A} (r : res A) : Prop :=
  ∀ status_code d, r ≠ Raise (HTTPException status_code d).

(** A closet with a numbered category on an accessory. *)
Definition odd_scarf : item := <["category" := VInt 7]> scarf.

Definition odd_closet : MemDB :=
  {| wardrobeitem := [red_tee; jeans; odd_scarf]; outfit := [] |}.

(** A warmth that unary minus rejects: a non-empty text, a non-empty list
    or an identifier. *)
Definition unary_minus_fails (o : option value) : bool :=
  match o with
  | Some (VStr s) => negb (String.eqb s "")
  | Some (VList (_ :: _)) | Some (VObjectId _) => true
  | _ => false
  end.

(** A tee whose warmth is a word. *)
Definition cosy_tee : item := <["warmth" := VStr "cosy"]> red_tee.

(** A closet of two documents, its listing, and the store after a call. *)
Definition capsule : MemDB := {| wardrobeitem := [plain_vest; jeans]; outfit := [] |}.

Definition capsule_listing : list item :=
  [<["id" := VStr "65f0c0de0000000000000003"]> (delete "_id" plain_vest);
   <["id" := VStr "65f0c0de0000000000000004"]> (delete "_id" jeans)].

Definition capsule_stored : MemDB :=
  {| wardrobeitem := [plain_vest; jeans];
     outfit := [outfit_doc bold (response_items bold_response)] |}.

Definition small_by_cat : gmap string (list item) :=
  {[ "top" := [red_tee]; "bottom" := [jeans] ]}.

(** * Properties *)

Section properties.
Context `{Lower}.

(** ** Text *)

(** On ASCII text every [lower] is the one of the examples. *)
Lemma lower_stand_in (s : string) : is_ascii s = true → lower s = lower (Lower := ascii_lower) s.
Proof. apply lower_on_ascii. Qed.

Lemma contains_empty (b : string) : contains "" b = true.
Proof. by destruct b. Qed.

Lemma cold_guard (w : option string) :
  truthy_str w && bool_decide (lower (default "" w) ∈ ["cold"; "chilly"]) = is_cold w.
Proof.
  destruct w as [w|]; simpl; [|done].
  destruct (String.eqb_spec w "") as [->|Hne]; simpl; [|done].
  rewrite lower_empty. symmetry. apply bool_decide_eq_false.
  rewrite !elem_of_cons, elem_of_nil. by intros [?|[?|[]]].
Qed.

Lemma hot_guard (w : option string) :
  truthy_str w && bool_decide (lower (default "" w) ∈ ["hot"; "warm"]) = is_hot w.
Proof.
  destruct w as [w|]; simpl; [|done].
  destruct (String.eqb_spec w "") as [->|Hne]; simpl; [|done].
  rewrite lower_empty. symmetry. apply bool_decide_eq_false.
  rewrite !elem_of_cons, elem_of_nil. by intros [?|[?|[]]].
Qed.

(** ** The first least element *)

Section first_min.
Context {A : Type} (f : A → Z).

Lemma first_min_None (l : list A) : first_min f l = None ↔ l = [].
Proof.
  destruct l as [|x l]; simpl; [done|].
  split; [|done]. destruct (first_min f l); [case_match|]; done.
Qed.

Lemma first_min_is_Some (l : list A) : l ≠ [] → is_Some (first_min f l).
Proof.
  intros Hl. destruct (first_min f l) eqn:E; [by eexists|].
  by apply first_min_None in E.
Qed.

(** The result is least, and strictly below everything before it. *)
Lemma first_min_Some (l : list A) (x : A) :
  first_min f l = Some x →
  ∃ pre post, l = pre ++ x :: post
    ∧ Forall (λ y, f x < f y) pre ∧ Forall (λ y, f x ≤ f y) post.
Proof.
  revert x. induction l as [|a l IH]; intros x; simpl; [done|].
  destruct (first_min f l) as [y|] eqn:E.
  - destruct (IH y eq_refl) as (pre & post & -> & Hpre & Hpost).
    destruct (Z.ltb_spec (f y) (f a)) as [Hlt|Hge]; intros [= <-].
    + exists (a :: pre), post. split; [done|]. split; [|done].
      by constructor.
    + exists [], (pre ++ y :: post). split; [done|]. split; [constructor|].
      apply Forall_app. split.
      * eapply Forall_impl; [exact Hpre|]. simpl. lia.
      * constructor; [done|]. eapply Forall_impl; [exact Hpost|]. simpl. lia.
  - intros [= <-]. apply first_min_None in E as ->.
    exists [], []. by repeat split.
Qed.

Lemma first_min_elem (l : list A) (x : A) : first_min f l = Some x → x ∈ l.
Proof.
  intros (pre & post & -> & _)%first_min_Some.
  apply elem_of_app. right. left.
Qed.

End first_min.

(** ** [sorted] on integer keys *)

Section sorted.
Context {A : Type} (f : A → Z).

Lemma insort_keyed (x : value * A) (s : list (value * A)) :
  keyed f x → Forall (keyed f) s →
  ∃ r, insort x s = Ok r ∧ Forall (keyed f) r
    ∧ head r = Some (match head s with
                     | Some y => if f y.2 <? f x.2 then y else x
                     | None => x
                     end).
Proof.
  intros Hx Hs. induction Hs as [|y s Hy Hs IH]; simpl.
  - exists [x]. by repeat constructor.
  - rewrite Hy, Hx. simpl. destruct (f y.2 <? f x.2) eqn:E.
    + destruct IH as (r & -> & Hr & _). simpl.
      exists (y :: r). by repeat constructor.
    + exists (x :: y :: s). by repeat constructor.
Qed.

Lemma sort_keyed_first_min (l : list A) :
  ∃ s, sort_keyed ((λ x, (VInt (f x), x)) <$> l) = Ok s ∧ Forall (keyed f) s
    ∧ head (s.*2) = first_min f l.
Proof.
  induction l as [|x l (s & Hs & Hk & Hh)]; csimpl.
  - exists []. by repeat constructor.
  - rewrite Hs. simpl.
    destruct (insort_keyed (VInt (f x), x) s) as (r & Hr & Hkr & Hhr); [done..|].
    exists r. split; [done|]. split; [done|].
    rewrite <- Hh. destruct r as [|z r]; [done|]. simpl in Hhr.
    injection Hhr as ->. destruct s as [|y s]; simpl; [done|].
    by destruct (f y.2 <? f x).
Qed.

Lemma sorted_first_min (key : A → res value) (l : list A) :
  Forall (λ x, key x = Ok (VInt (f x))) l →
  ∃ s, sorted l key = Ok s ∧ head s = first_min f l.
Proof.
  intros Hkey. unfold sorted.
  assert (mapM (λ x, k ← key x; Ok (k, x)) l = Ok ((λ x, (VInt (f x), x)) <$> l)) as ->.
  { induction Hkey as [|x l Hx _ IH]; simpl; [done|].
    rewrite Hx. simpl. by rewrite IH. }
  simpl. destruct (sort_keyed_first_min l) as (s & -> & _ & Hh). simpl.
  by exists (s.*2).
Qed.

End sorted.

(** ** Reading a typed document *)

Section typed.
Context (i : item) (Hok : Wardrobeitem_ok i = true).

Lemma ok_category : str_lower (or_ (get i "category") (VStr "")) = Ok (category_of i).
Proof.
  unfold Wardrobeitem_ok, category_of, get in *.
  destruct (i !! "category") as [[| s | | |]|]; try done.
  simpl. unfold or_. simpl. by destruct (String.eqb_spec s "") as [->|].
Qed.

Lemma ok_color : str_lower (or_ (get i "color") (VStr "")) = Ok (color_of i).
Proof.
  unfold Wardrobeitem_ok, color_of, get in *.
  destruct (i !! "color") as [[| s | | |]|]; try done;
    try by rewrite andb_false_r in Hok.
  simpl. unfold or_. simpl. by destruct (String.eqb_spec s "") as [->|].
Qed.

Lemma ok_tags : iter (default (VList []) (i !! "tags")) = Ok (tags_of i).
Proof.
  unfold Wardrobeitem_ok, tags_of in *.
  destruct (i !! "tags") as [[]|]; try done;
    by rewrite !andb_false_r in Hok.
Qed.

Lemma ok_warmth : or_ (get i "warmth") (VInt 0) = VInt (warmth_of i).
Proof.
  unfold Wardrobeitem_ok, warmth_of, get in *.
  destruct (i !! "warmth") as [[| | n | |]|]; try done;
    try by rewrite !andb_false_r in Hok.
  simpl. unfold or_. simpl. by destruct (Z.eqb_spec n 0) as [->|].
Qed.

Lemma ok_mood_match (m : string) : mood_match m i = Ok (is_mood_match m i).
Proof.
  unfold mood_match, is_mood_match. rewrite ok_color. simpl.
  destruct (contains (color_of i) m); [done|].
  by rewrite ok_tags.
Qed.

End typed.

(** ** Comprehensions and first matches *)

Lemma comprehension_filter {A} (p : A → res bool) (q : A → bool) (l : list A) :
  Forall (λ x, p x = Ok (q x)) l → comprehension p l = Ok (List.filter q l).
Proof.
  induction 1 as [|x l Hx _ IH]; simpl; [done|].
  rewrite Hx, IH. simpl. by destruct (q x).
Qed.

Lemma head_filter_find {A} (q : A → bool) (l : list A) :
  head (List.filter q l) = List.find q l.
Proof. induction l as [|x l IH]; simpl; [done|]. by destruct (q x). Qed.

Lemma find_first {A} (q : A → bool) (l : list A) (x : A) :
  List.find q l = Some x ↔
  ∃ pre post, l = pre ++ x :: post ∧ q x = true ∧ Forall (λ y, q y = false) pre.
Proof.
  split.
  - revert x. induction l as [|a l IH]; intros x; simpl; [done|].
    destruct (q a) eqn:E.
    + intros [= <-]. exists [], l. by repeat split.
    + intros (pre & post & -> & Hx & Hpre)%IH.
      exists (a :: pre), post. repeat split; [done|]. by constructor.
  - intros (pre & post & -> & Hx & Hpre).
    induction Hpre as [|a pre Ha _ IH]; simpl; [by rewrite Hx|].
    by rewrite Ha.
Qed.

Lemma find_none {A} (q : A → bool) (l : list A) :
  List.find q l = None ↔ Forall (λ y, q y = false) l.
Proof.
  induction l as [|a l IH]; simpl; [by split; [constructor|]|].
  destruct (q a) eqn:E.
  - split; [done|]. intros Hl. apply Forall_cons in Hl as [? _]. congruence.
  - rewrite IH. split; [by constructor|]. by intros [_ ?]%Forall_cons.
Qed.

(** ** [pick_from] computes Pick-one on typed buckets *)

Section pick.
Context (req : OutfitRequest) (cat_list : list item).
Context (Hok : Forall (λ i, Wardrobeitem_ok i = true) cat_list).

Lemma mood_bias_rule : mood_bias req cat_list = Ok (mood_rule (mood req) cat_list).
Proof.
  unfold mood_bias, mood_rule. destruct (truthy_str (mood req)); [|done].
  rewrite (comprehension_filter _ (is_mood_match (lower (default "" (mood req))))).
  - simpl. by rewrite head_filter_find.
  - eapply Forall_impl; [exact Hok|]. intros i Hi. by apply ok_mood_match.
Qed.

Lemma weather_bias_rule :
  cat_list ≠ [] → weather_bias req cat_list = Ok (weather_rule (weather req) cat_list).
Proof.
  intros Hne. unfold weather_bias, weather_rule.
  rewrite <- (cold_guard (weather req)), <- (hot_guard (weather req)).
  destruct (truthy_str (weather req)); simpl; [|done].
  destruct (bool_decide (_ ∈ ["cold"; "chilly"])).
  - destruct (sorted_first_min (λ x, - warmth_of x)
      (λ x, neg (or_ (get x "warmth") (VInt 0))) cat_list) as (s & -> & Hs).
    { eapply Forall_impl; [exact Hok|]. intros i Hi. simpl. by rewrite ok_warmth. }
    simpl. rewrite <- Hs.
    destruct s as [|x s]; [|done].
    symmetry in Hs. by apply first_min_None in Hs.
  - destruct (bool_decide (_ ∈ ["hot"; "warm"])); [|done].
    destruct (sorted_first_min warmth_of
      (λ x, Ok (or_ (get x "warmth") (VInt 0))) cat_list) as (s & -> & Hs).
    { eapply Forall_impl; [exact Hok|]. intros i Hi. simpl. by rewrite ok_warmth. }
    simpl. rewrite <- Hs.
    destruct s as [|x s]; [|done].
    symmetry in Hs. by apply first_min_None in Hs.
Qed.

Lemma pick_from_Pick_one : pick_from req cat_list = Ok (Pick_one req cat_list).
Proof.
  unfold pick_from, Pick_one. case_bool_decide as Hnil.
  - subst. unfold mood_rule, weather_rule. simpl.
    by destruct (truthy_str (mood req)), (is_cold (weather req)), (is_hot (weather req)).
  - rewrite mood_bias_rule. simpl.
    destruct (mood_rule _ _); [done|].
    rewrite weather_bias_rule by done. simpl.
    destruct (weather_rule _ _); [done|].
    by destruct cat_list.
Qed.

End pick.

(** ** Categorisation fills the buckets *)

Lemma bucket_ok (items : list item) (cat : string) :
  Forall (λ i, Wardrobeitem_ok i = true) items →
  Forall (λ i, Wardrobeitem_ok i = true) (bucket items cat).
Proof.
  rewrite !Forall_forall. intros Hok x [_ Hx]%list_elem_of_filter. by apply Hok.
Qed.

Lemma bucket_category (items : list item) (cat : string) (x : item) :
  x ∈ bucket items cat → x ∈ items ∧ category_of x = cat.
Proof. unfold bucket. by rewrite list_elem_of_filter, (comm and). Qed.

Lemma categorize_buckets (items : list item) (acc : gmap string (list item)) :
  Forall (λ i, Wardrobeitem_ok i = true) items →
  ∃ by_cat, categorize acc items = Ok by_cat
    ∧ ∀ cat, default [] (by_cat !! cat) = default [] (acc !! cat) ++ bucket items cat.
Proof.
  intros Hok. revert acc. induction Hok as [|it rest Hit _ IH]; intros acc; simpl.
  - exists acc. split; [done|]. intros cat. by rewrite app_nil_r.
  - rewrite ok_category by done. simpl.
    destruct (IH (<[category_of it := default [] (acc !! category_of it) ++ [it]]> acc))
      as (by_cat & -> & Hb).
    exists by_cat. split; [done|]. intros cat. rewrite Hb. unfold bucket.
    destruct (decide (category_of it = cat)) as [<-|Hne].
    + rewrite lookup_insert_eq, filter_cons_True by done. simpl.
      by rewrite <- app_assoc.
    + by rewrite lookup_insert_ne, filter_cons_False.
Qed.

(** ** Snapshots *)

Lemma snapshot_delete (str : value → string) (sel : item) :
  snapshot str sel = delete "_id" sel.
Proof.
  apply map_eq. intros k. unfold snapshot. rewrite map_lookup_imap, lookup_delete.
  destruct (sel !! k) as [v|] eqn:E; simpl.
  - case_bool_decide as Hk; case_decide; try done; try congruence.
    by rewrite bool_decide_eq_false_2 by congruence.
  - by case_decide.
Qed.

(** ** Picks belong to their bucket *)

Lemma Pick_one_elem (req : OutfitRequest) (l : list item) (x : item) :
  Pick_one req l = Some x → x ∈ l.
Proof.
  unfold Pick_one, mood_rule, weather_rule.
  destruct (truthy_str (mood req)).
  - destruct (List.find _ l) as [y|] eqn:E.
    + intros [= <-]. apply find_first in E as (pre & post & -> & _).
      apply elem_of_app. right. left.
    + destruct (is_cold _); [|destruct (is_hot _)].
      * destruct (first_min _ l) eqn:F; [|by intros ?%head_Some_elem_of].
        intros [= <-]. by eapply first_min_elem.
      * destruct (first_min _ l) eqn:F; [|by intros ?%head_Some_elem_of].
        intros [= <-]. by eapply first_min_elem.
      * by intros ?%head_Some_elem_of.
  - destruct (is_cold _); [|destruct (is_hot _)].
    * destruct (first_min _ l) eqn:F; [|by intros ?%head_Some_elem_of].
      intros [= <-]. by eapply first_min_elem.
    * destruct (first_min _ l) eqn:F; [|by intros ?%head_Some_elem_of].
      intros [= <-]. by eapply first_min_elem.
    * by intros ?%head_Some_elem_of.
Qed.

Lemma Pick_one_None (req : OutfitRequest) (l : list item) :
  Pick_one req l = None ↔ l = [].
Proof.
  split.
  - unfold Pick_one. destruct (mood_rule _ _); [done|].
    destruct (weather_rule _ _); [done|]. by destruct l.
  - intros ->. unfold Pick_one, mood_rule, weather_rule. simpl.
    by destruct (truthy_str (mood req)), (is_cold (weather req)), (is_hot (weather req)).
Qed.

(** A document with a category is not the empty dict, so [if sel:] holds
    for every pick from a named bucket. *)
Lemma category_nonempty (x : item) : category_of x ≠ "" → x ≠ ∅.
Proof. intros Hc ->. apply Hc. unfold category_of. by rewrite lookup_empty, lower_empty. Qed.

Lemma truthy_pick_bucket (req : OutfitRequest) (items : list item) (cat : string) :
  cat ≠ "" →
  truthy_pick (Pick_one req (bucket items cat))
  = bool_decide (is_Some (Pick_one req (bucket items cat))).
Proof.
  intros Hc. destruct (Pick_one _ _) as [x|] eqn:E; simpl; [|done].
  apply Pick_one_elem, bucket_category in E as [_ Hx].
  rewrite bool_decide_eq_false_2; [done|].
  apply category_nonempty. by rewrite Hx.
Qed.

Lemma append_pick (str : value → string) (req : OutfitRequest) (items selected : list item)
    (cat : string) :
  cat ≠ "" →
  (if truthy_pick (Pick_one req (bucket items cat))
   then selected ++ [snapshot str (default ∅ (Pick_one req (bucket items cat)))]
   else selected)
  = selected ++ (snapshot str <$> option_list (Pick_one req (bucket items cat))).
Proof.
  intros Hc. rewrite truthy_pick_bucket by done.
  destruct (Pick_one _ _); simpl; [done|]. by rewrite app_nil_r.
Qed.

(** ** The assembled selection *)

Lemma assemble_picks (str : value → string) (req : OutfitRequest) (items : list item) :
  Forall (λ i, Wardrobeitem_ok i = true) items →
  assemble str req items = Ok (snapshot str <$> picks req items).
Proof.
  intros Hok. unfold assemble, picks.
  destruct (categorize_buckets items ∅ Hok) as (by_cat & -> & Hb). simpl.
  assert (∀ cat, pick_from req (default [] (by_cat !! cat))
                 = Ok (Pick_one req (bucket items cat))) as Hpick.
  { intros cat. rewrite Hb, lookup_empty. simpl.
    apply pick_from_Pick_one. by apply bucket_ok. }
  pose proof (append_pick str req items [] "top" ltac:(done)) as Htop.
  simpl in Htop. rewrite !Hpick. simpl. rewrite Htop, !append_pick by done. simpl.
  unfold outerwear. rewrite cold_guard. rewrite !fmap_app.
  destruct (is_cold (weather req)).
  - rewrite Hpick. simpl. rewrite append_pick by done.
    by rewrite <- !app_assoc.
  - simpl. by rewrite !app_nil_r, <- !app_assoc.
Qed.

(** ** Running [generate_outfit] *)

Section run.
Context `{Database DB} (str : value → string).

Lemma generate_outfit_run (req : OutfitRequest) (db : DB) :
  generate_outfit str req db =
  match get_documents "wardrobeitem" {[ "owner_email" := VStr (email req) ]} db with
  | inl e => (db, Raise (HTTPException 500 (StrOf e)))
  | inr [] => (db, Raise (HTTPException 404 (Text "No wardrobe items found")))
  | inr fetched =>
      match assemble str req fetched with
      | Raise (Exception e) => (db, Raise (HTTPException 500 (StrOf e)))
      | Raise r => (db, Raise r)
      | Ok [] =>
          (db, Raise (HTTPException 400 (Text "Could not compose an outfit from wardrobe")))
      | Ok selected => reply req selected db
      end
  end.
Proof.
  unfold generate_outfit, try_except, find, reply, assemble, pure, raise, insert_one.
  unfold mbind at 1 2 3 4 5, M_bind, mret, M_ret.
  destruct (get_documents _ _ db) as [e|[|it fetched]]; cbn -[categorize slots outerwear];
    [done..|].
  destruct (categorize ∅ (it :: fetched)) as [by_cat|[]];
    cbn -[categorize slots outerwear]; [|done..].
  destruct (slots str req by_cat ["top"; "bottom"; "footwear"] []) as [s1|[]];
    cbn -[categorize slots outerwear]; [|done..].
  destruct (outerwear str req by_cat s1) as [[|s selected]|[]];
    cbn -[categorize slots outerwear]; [done| |done..].
  unfold outfit_doc.
  by destruct (create_document _ _ db) as [db' [e|i]].
Qed.

End run.

(** ** Every pick is one of the given items *)

Lemma comprehension_elem {A} (p : A → res bool) (l r : list A) (x : A) :
  comprehension p l = Ok r → x ∈ r → x ∈ l.
Proof.
  revert r. induction l as [|a l IH]; intros r; simpl.
  - by intros [= <-].
  - destruct (p a) as [b|]; simpl; [|done].
    destruct (comprehension p l) as [r'|]; simpl; [|done].
    intros [= <-] Hx. destruct b; [|right; by apply (IH r')].
    apply elem_of_cons in Hx as [->|Hx]; [left|right; by apply (IH r')].
Qed.

Lemma insort_perm {A} (x : value * A) (s r : list (value * A)) :
  insort x s = Ok r → r ≡ₚ x :: s.
Proof.
  revert r. induction s as [|y s IH]; intros r; simpl.
  - by intros [= <-].
  - destruct (lt y.1 x.1) as [[]|]; simpl; [|by intros [= <-]|done].
    destruct (insort x s) as [r'|]; simpl; [|done].
    intros [= <-]. rewrite (IH r' eq_refl). apply Permutation_swap.
Qed.

Lemma sort_keyed_perm {A} (l s : list (value * A)) :
  sort_keyed l = Ok s → s ≡ₚ l.
Proof.
  revert s. induction l as [|x l IH]; intros s; simpl.
  - by intros [= <-].
  - destruct (sort_keyed l) as [s'|]; simpl; [|done].
    intros ->%insort_perm. by rewrite (IH s' eq_refl).
Qed.

Lemma sorted_perm {A} (key : A → res value) (l s : list A) :
  sorted l key = Ok s → s ≡ₚ l.
Proof.
  unfold sorted.
  destruct (mapM _ l) as [ks|] eqn:E; simpl; [|done].
  assert (ks.*2 = l) as <-.
  { revert ks E. induction l as [|x l IH]; intros ks; simpl.
    - by intros [= <-].
    - destruct (key x) as [k|]; simpl; [|done].
      destruct (mapM _ l) as [ks'|]; simpl; [|done].
      intros [= <-]. rewrite fmap_cons. f_equal. by apply IH. }
  destruct (sort_keyed ks) as [s'|] eqn:F; simpl; [|done].
  intros [= <-]. apply sort_keyed_perm in F. by rewrite F.
Qed.

Lemma first_elem {A} (l : list A) (x : A) : first l = Ok x → x ∈ l.
Proof. destruct l; simpl; [done|]. intros [= <-]. left. Qed.

Lemma pick_from_elem (req : OutfitRequest) (l : list item) (x : item) :
  pick_from req l = Ok (Some x) → x ∈ l.
Proof.
  unfold pick_from. case_bool_decide; [done|].
  destruct (mood_bias req l) as [[y|]|] eqn:E; simpl; [| |done].
  { intros [= <-]. unfold mood_bias in E.
    destruct (truthy_str (mood req)); [|done].
    destruct (comprehension _ l) as [r|] eqn:F; simpl in E; [|done].
    injection E as E. apply head_Some_elem_of in E.
    by eapply comprehension_elem. }
  destruct (weather_bias req l) as [[y|]|] eqn:F; simpl; [| |done].
  - intros [= <-]. unfold weather_bias in F.
    destruct (truthy_str (weather req)); [|done].
    repeat case_bool_decide; try done.
    + destruct (sorted l _) as [s|] eqn:G; simpl in F; [|done].
      destruct (first s) as [z|] eqn:K; simpl in F; [|done].
      injection F as ->. apply first_elem in K. apply sorted_perm in G.
      by rewrite <- G.
    + destruct (sorted l _) as [s|] eqn:G; simpl in F; [|done].
      destruct (first s) as [z|] eqn:K; simpl in F; [|done].
      injection F as ->. apply first_elem in K. apply sorted_perm in G.
      by rewrite <- G.
  - destruct (first l) as [z|] eqn:K; simpl; [|done].
    intros [= <-]. by apply first_elem.
Qed.

Lemma categorize_elem (items : list item) (acc by_cat : gmap string (list item))
    (cat : string) (x : item) :
  categorize acc items = Ok by_cat →
  x ∈ default [] (by_cat !! cat) → x ∈ default [] (acc !! cat) ∨ x ∈ items.
Proof.
  revert acc. induction items as [|it rest IH]; intros acc; simpl.
  - intros [= <-]. by left.
  - destruct (str_lower _) as [c|]; simpl; [|done].
    intros Hc Hx. destruct (IH _ Hc Hx) as [Hacc|Hrest]; [|by right; right].
    destruct (decide (c = cat)) as [<-|Hne].
    + rewrite lookup_insert_eq in Hacc. simpl in Hacc.
      apply elem_of_app in Hacc as [Hacc|Hacc]; [by left|].
      apply list_elem_of_singleton in Hacc as ->. right. left.
    + rewrite lookup_insert_ne in Hacc by done. by left.
Qed.

Section snapshots.
Context (str : value → string) (req : OutfitRequest).

Lemma append_snapshot (items l selected : list item) (sel : option item) :
  (∀ x, x ∈ l → x ∈ items) →
  pick_from req l = Ok sel →
  snapshots_of str items selected →
  snapshots_of str items
    (if truthy_pick sel then selected ++ [snapshot str (default ∅ sel)] else selected).
Proof.
  intros Hl Hp Hs. destruct sel as [x|]; simpl; [|done].
  destruct (negb _); [|done].
  apply Forall_app. split; [done|]. constructor; [|constructor].
  exists x. split; [|done]. by apply Hl, (pick_from_elem req).
Qed.

Lemma slots_snapshots (items : list item) (by_cat : gmap string (list item))
    (cats : list string) (selected r : list item) :
  (∀ cat x, x ∈ default [] (by_cat !! cat) → x ∈ items) →
  slots str req by_cat cats selected = Ok r →
  snapshots_of str items selected → snapshots_of str items r.
Proof.
  intros Hb. revert selected. induction cats as [|cat cats IH]; intros selected; simpl.
  - by intros [= <-].
  - destruct (pick_from req _) as [sel|] eqn:E; simpl; [|done].
    intros Hr Hs. apply (IH _ Hr). eapply append_snapshot; [apply Hb|done..].
Qed.

Lemma assemble_snapshots (items selected : list item) :
  assemble str req items = Ok selected → snapshots_of str items selected.
Proof.
  unfold assemble.
  destruct (categorize ∅ items) as [by_cat|] eqn:E; cbn -[slots outerwear]; [|done].
  assert (∀ cat x, x ∈ default [] (by_cat !! cat) → x ∈ items) as Hb.
  { intros cat x Hx. destruct (categorize_elem _ _ _ cat x E Hx) as [Hx'|]; [|done].
    rewrite lookup_empty in Hx'. by apply elem_of_nil in Hx'. }
  destruct (slots str req by_cat ["top"; "bottom"; "footwear"] []) as [s1|] eqn:F;
    cbn -[slots outerwear]; [|done].
  assert (snapshots_of str items s1) as Hs1
    by (eapply slots_snapshots; [exact Hb|exact F|constructor]).
  unfold outerwear. destruct (_ && _); [|by intros [= <-]].
  destruct (pick_from req _) as [sel|] eqn:G; simpl; [|done].
  intros [= <-]. eapply append_snapshot; [apply Hb|done..].
Qed.

End snapshots.

(** * Properties of the selector *)

Lemma hot_not_cold (w : option string) : is_hot w = true → is_cold w = false.
Proof.
  destruct w as [w|]; simpl; [|done].
  intros Hh%bool_decide_eq_true. apply bool_decide_eq_false.
  revert Hh. generalize (lower w). intros s Hh Hc.
  rewrite !elem_of_cons, elem_of_nil in Hh, Hc.
  destruct Hh as [->|[->|[]]], Hc as [?|[?|[]]]; discriminate.
Qed.

Lemma no_match_rule (m : option string) (l : list item) :
  truthy_str m = false
  ∨ Forall (λ y, is_mood_match (lower (default "" m)) y = false) l →
  mood_rule m l = None.
Proof.
  unfold mood_rule. intros [->|Hl]; [done|].
  destruct (truthy_str m); [|done]. by apply find_none.
Qed.

(** C1, amended. For a non-empty bucket of wardrobe items and any request:
    when the mood is a non-empty text and some item is a mood match,
    [pick_from] returns the first match in bucket order, whatever the
    weather; when the mood is missing or empty, or no item matches, it
    returns the pick of the weather rule if the weather is recognised, and
    the first item of the bucket otherwise. *)
Theorem pick_from_precedence (req : OutfitRequest) (cat_list : list item) :
  cat_list ≠ [] →
  Forall (λ i, Wardrobeitem_ok i = true) cat_list →
  let mood_text := lower (default "" (mood req)) in
  let no_match :=
    truthy_str (mood req) = false
    ∨ Forall (λ y, is_mood_match mood_text y = false) cat_list in
  (∀ pre x post,
      truthy_str (mood req) = true →
      cat_list = pre ++ x :: post →
      is_mood_match mood_text x = true →
      Forall (λ y, is_mood_match mood_text y = false) pre →
      pick_from req cat_list = Ok (Some x))
  ∧ (no_match → is_cold (weather req) || is_hot (weather req) = true →
      is_Some (weather_rule (weather req) cat_list)
      ∧ pick_from req cat_list = Ok (weather_rule (weather req) cat_list))
  ∧ (no_match → is_cold (weather req) || is_hot (weather req) = false →
      pick_from req cat_list = Ok (head cat_list)).
Proof.
  intros Hne Hok mood_text no_match. rewrite pick_from_Pick_one by done.
  unfold Pick_one. split; [|split].
  - intros pre x post Hm Hl Hx Hpre. unfold mood_rule. rewrite Hm.
    fold mood_text. replace (List.find _ _) with (Some x); [done|].
    symmetry. apply find_first. by exists pre, post.
  - intros Hno Hw. rewrite (no_match_rule _ _ Hno).
    assert (is_Some (weather_rule (weather req) cat_list)) as [x Hx].
    { unfold weather_rule. destruct (is_cold _); [by apply first_min_is_Some|].
      simpl in Hw. rewrite Hw. by apply first_min_is_Some. }
    by rewrite Hx.
  - intros Hno [Hc Hh]%orb_false_iff. rewrite (no_match_rule _ _ Hno).
    unfold weather_rule. by rewrite Hc, Hh.
Qed.

(** C2. For a non-empty bucket with no applicable mood match: when the
    weather lower-cases to cold or chilly the pick has the highest warmth
    and is the first item that has it; when it lower-cases to hot or warm
    the pick has the lowest warmth and is the first item that has it. A
    missing (or [None]) warmth counts as 0. *)
Theorem pick_from_weather (req : OutfitRequest) (cat_list : list item) :
  cat_list ≠ [] →
  Forall (λ i, Wardrobeitem_ok i = true) cat_list →
  truthy_str (mood req) = false
  ∨ Forall (λ y, is_mood_match (lower (default "" (mood req))) y = false) cat_list →
  (is_cold (weather req) = true →
     ∃ pre x post, cat_list = pre ++ x :: post
       ∧ pick_from req cat_list = Ok (Some x)
       ∧ Forall (λ y, warmth_of y < warmth_of x) pre
       ∧ Forall (λ y, warmth_of y ≤ warmth_of x) post)
  ∧ (is_hot (weather req) = true →
     ∃ pre x post, cat_list = pre ++ x :: post
       ∧ pick_from req cat_list = Ok (Some x)
       ∧ Forall (λ y, warmth_of x < warmth_of y) pre
       ∧ Forall (λ y, warmth_of x ≤ warmth_of y) post)
  ∧ (∀ i, i !! "warmth" = None ∨ i !! "warmth" = Some VNone → warmth_of i = 0).
Proof.
  intros Hne Hok Hno. rewrite pick_from_Pick_one by done.
  unfold Pick_one. rewrite (no_match_rule _ _ Hno). unfold weather_rule.
  split; [|split].
  - intros ->.
    destruct (first_min_is_Some (λ x, - warmth_of x) cat_list Hne) as [x Hx].
    rewrite Hx. destruct (first_min_Some _ _ _ Hx) as (pre & post & -> & Hpre & Hpost).
    exists pre, x, post. split; [done|]. split; [done|]. split.
    + eapply Forall_impl; [exact Hpre|]. simpl. lia.
    + eapply Forall_impl; [exact Hpost|]. simpl. lia.
  - intros Hh. rewrite (hot_not_cold _ Hh), Hh.
    destruct (first_min_is_Some warmth_of cat_list Hne) as [x Hx].
    rewrite Hx. destruct (first_min_Some _ _ _ Hx) as (pre & post & -> & Hpre & Hpost).
    by exists pre, x, post.
  - intros i. unfold warmth_of. by intros [->| ->].
Qed.

(** C10, amended. When the mood is a non-empty text, an item of a bucket
    of wardrobe items whose colour is missing, [None] or the empty text, or
    which carries an empty tag, is a mood match. The bucket's pick is then
    its first mood match, which is that item or one placed before it, and
    it is the same for every weather. *)
Theorem empty_color_is_mood_match (req : OutfitRequest) (cat_list : list item)
    (m : string) (i : item) :
  mood req = Some m → m ≠ "" →
  Forall (λ i, Wardrobeitem_ok i = true) cat_list →
  i ∈ cat_list →
  i !! "color" = None ∨ i !! "color" = Some VNone ∨ i !! "color" = Some (VStr "")
  ∨ "" ∈ tags_of i →
  mood_match (lower m) i = Ok true
  ∧ ∃ pre x post, cat_list = pre ++ x :: post
      ∧ (i ∉ pre)
      ∧ is_mood_match (lower m) x = true
      ∧ Forall (λ y, is_mood_match (lower m) y = false) pre
      ∧ ∀ w, pick_from {| email := email req; mood := mood req;
                          weather := w; event := event req |} cat_list
             = Ok (Some x).
Proof.
  intros Hm Hne Hok Hi Hempty.
  assert (is_mood_match (lower m) i = true) as Hmatch.
  { unfold is_mood_match, color_of.
    destruct Hempty as [->|[->|[->|Ht]]]; simpl;
      try by rewrite lower_empty, contains_empty.
    apply orb_true_iff. right. apply existsb_exists. exists "".
    split; [by apply list_elem_of_In|]. by rewrite lower_empty, contains_empty. }
  split.
  { rewrite ok_mood_match; [by rewrite Hmatch|].
    by eapply Forall_forall in Hok. }
  destruct (List.find (is_mood_match (lower m)) cat_list) as [x|] eqn:E.
  - pose proof E as (pre & post & -> & Hx & Hpre)%find_first.
    exists pre, x, post. repeat split; [|done..|].
    + intros Hin. eapply Forall_forall in Hpre; [|exact Hin]. congruence.
    + intros w. rewrite pick_from_Pick_one by done.
      unfold Pick_one, mood_rule. simpl. rewrite Hm. simpl.
      destruct (String.eqb_spec m "") as [|_]; [done|]. simpl. by rewrite E.
  - apply find_none in E. eapply Forall_forall in E; [|exact Hi]. congruence.
Qed.

Lemma picks_nonempty (req : OutfitRequest) (items : list item) :
  bucket items "top" ≠ [] ∨ bucket items "bottom" ≠ [] ∨ bucket items "footwear" ≠ [] →
  picks req items ≠ [].
Proof.
  unfold picks. intros Hb Hnil.
  apply app_eq_nil in Hnil as [Ht Hnil].
  apply app_eq_nil in Hnil as [Hbo Hnil].
  apply app_eq_nil in Hnil as [Hf _].
  destruct Hb as [Hb|[Hb|Hb]]; apply Hb, (Pick_one_None req).
  - by destruct (Pick_one req (bucket items "top")).
  - by destruct (Pick_one req (bucket items "bottom")).
  - by destruct (Pick_one req (bucket items "footwear")).
Qed.

Lemma picks_empty (req : OutfitRequest) (items : list item) :
  bucket items "top" = [] → bucket items "bottom" = [] → bucket items "footwear" = [] →
  is_cold (weather req) = false ∨ bucket items "outerwear" = [] →
  picks req items = [].
Proof.
  unfold picks. intros -> -> -> Hw.
  rewrite (proj2 (Pick_one_None req [])) by done. simpl.
  destruct Hw as [->| ->]; [done|].
  rewrite (proj2 (Pick_one_None req [])) by done. by destruct (is_cold _).
Qed.

Section claims.
Context `{Database DB} (str : value → string).

(** C3. When the fetched wardrobe holds wardrobe items and one of the
    buckets top, bottom, footwear is not empty, the assembled selection is
    not empty and [generate_outfit] answers with it as soon as the store
    accepts the insert; the only other outcome is the store's own failure
    (status 500), never 400 or 404. *)
Theorem generate_outfit_nonempty (req : OutfitRequest) (db : DB) (wardrobe : list item) :
  fetched req db = inr wardrobe →
  Forall (λ i, Wardrobeitem_ok i = true) wardrobe →
  bucket wardrobe "top" ≠ [] ∨ bucket wardrobe "bottom" ≠ []
  ∨ bucket wardrobe "footwear" ≠ [] →
  ∃ selected, selected ≠ []
    ∧ assemble str req wardrobe = Ok selected
    ∧ match create_document "outfit" (outfit_doc req selected) db with
      | (db', inr inserted_id) =>
          generate_outfit str req db
          = (db', Ok {| id := inserted_id;
                        response_items := selected;
                        response_title := title (outfit_doc req selected) |})
      | (db', inl e) =>
          generate_outfit str req db = (db', Raise (HTTPException 500 (StrOf e)))
      end.
Proof.
  intros Hf Hok Hb. exists (snapshot str <$> picks req wardrobe).
  pose proof (picks_nonempty req wardrobe Hb) as Hne.
  split; [by intros ?%fmap_nil_inv|].
  split; [by apply assemble_picks|].
  rewrite generate_outfit_run. unfold fetched in Hf. rewrite Hf.
  destruct wardrobe as [|it wardrobe].
  { by destruct Hb as [?|[?|?]]. }
  rewrite assemble_picks by done. unfold reply.
  destruct (picks req (it :: wardrobe)) as [|p ps]; [done|]. simpl.
  by destruct (create_document _ _ db) as [db' [e|i]].
Qed.

(** C4. When the owner has no wardrobe item, [generate_outfit] raises the
    404 error "No wardrobe items found"; nothing is selected and the store
    is left as it was. *)
Theorem generate_outfit_no_items (req : OutfitRequest) (db : DB) :
  fetched req db = inr [] →
  generate_outfit str req db
  = (db, Raise (HTTPException 404 (Text "No wardrobe items found"))).
Proof.
  intros Hf. rewrite generate_outfit_run. unfold fetched in Hf. by rewrite Hf.
Qed.

(** C5. When the wardrobe is not empty and the assembled selection is
    empty, [generate_outfit] raises the 400 error "Could not compose an
    outfit from wardrobe". That is the case of a wardrobe of items whose
    buckets top, bottom and footwear are empty while the weather is not
    cold or chilly (or the outerwear bucket is empty too). *)
Theorem generate_outfit_empty_selection (req : OutfitRequest) (db : DB)
    (wardrobe : list item) :
  fetched req db = inr wardrobe →
  wardrobe ≠ [] →
  assemble str req wardrobe = Ok []
  ∨ (Forall (λ i, Wardrobeitem_ok i = true) wardrobe
     ∧ bucket wardrobe "top" = [] ∧ bucket wardrobe "bottom" = []
     ∧ bucket wardrobe "footwear" = []
     ∧ (is_cold (weather req) = false ∨ bucket wardrobe "outerwear" = [])) →
  generate_outfit str req db
  = (db, Raise (HTTPException 400 (Text "Could not compose an outfit from wardrobe"))).
Proof.
  intros Hf Hne Hsel.
  assert (assemble str req wardrobe = Ok []) as Hempty.
  { destruct Hsel as [?|(Hok & Ht & Hb & Hfw & Hw)]; [done|].
    rewrite assemble_picks by done. by rewrite picks_empty. }
  rewrite generate_outfit_run. unfold fetched in Hf. rewrite Hf, Hempty.
  by destruct wardrobe.
Qed.

(** C6. On a wardrobe of items the selection is made of the snapshots of
    what [pick_from] returns on the buckets top, bottom and footwear, in
    that order, an empty bucket giving nothing; the pick of the outerwear
    bucket follows exactly when the weather lower-cases to cold or chilly.
    Otherwise no outerwear item is selected. *)
Theorem assemble_slots (req : OutfitRequest) (wardrobe : list item) :
  Forall (λ i, Wardrobeitem_ok i = true) wardrobe →
  ∃ top bottom footwear outer,
    pick_from req (bucket wardrobe "top") = Ok top
    ∧ pick_from req (bucket wardrobe "bottom") = Ok bottom
    ∧ pick_from req (bucket wardrobe "footwear") = Ok footwear
    ∧ pick_from req (bucket wardrobe "outerwear") = Ok outer
    ∧ pick_from req [] = Ok None
    ∧ assemble str req wardrobe
      = Ok (snapshot str <$>
              option_list top ++ option_list bottom ++ option_list footwear
              ++ (if is_cold (weather req) then option_list outer else []))
    ∧ (is_cold (weather req) = false →
       ∀ selected, assemble str req wardrobe = Ok selected →
         Forall (λ s, category_of s ≠ "outerwear") selected).
Proof.
  intros Hok.
  exists (Pick_one req (bucket wardrobe "top")), (Pick_one req (bucket wardrobe "bottom")),
    (Pick_one req (bucket wardrobe "footwear")), (Pick_one req (bucket wardrobe "outerwear")).
  rewrite !pick_from_Pick_one by (by apply bucket_ok || constructor).
  rewrite assemble_picks by done.
  repeat (split; [by rewrite ?(proj2 (Pick_one_None req []))|]).
  intros Hw selected [= <-]. unfold picks. rewrite Hw, app_nil_r.
  assert (∀ cat, cat ≠ "outerwear" →
    Forall (λ s, category_of s ≠ "outerwear")
      (snapshot str <$> option_list (Pick_one req (bucket wardrobe cat)))) as Hcat.
  { intros cat Hcat. destruct (Pick_one req (bucket wardrobe cat)) as [x|] eqn:E;
      [|constructor].
    apply Pick_one_elem, bucket_category in E as [_ Hx].
    constructor; [|constructor]. rewrite snapshot_delete.
    unfold category_of in *. rewrite lookup_delete_ne by done. by rewrite Hx. }
  rewrite !fmap_app, !Forall_app. by repeat split; apply Hcat.
Qed.

(** C7. [generate_outfit] either fails before the insert and leaves the
    store as it was, or it has fetched a wardrobe and assembled a
    non-empty selection and the store is the one a single
    [create_document] of that outfit produces. A failure with a status
    other than 500 - 404 or 400 - leaves the store as it was. *)
Theorem generate_outfit_persists_once (req : OutfitRequest) (db : DB) :
  ((∃ r, generate_outfit str req db = (db, Raise r))
   ∨ (∃ wardrobe selected,
        fetched req db = inr wardrobe
        ∧ assemble str req wardrobe = Ok selected
        ∧ selected ≠ []
        ∧ generate_outfit str req db = reply req selected db
        ∧ (generate_outfit str req db).1
          = (create_document "outfit" (outfit_doc req selected) db).1))
  ∧ (∀ status_code d,
       (generate_outfit str req db).2 = Raise (HTTPException status_code d) →
       status_code ≠ 500 →
       (generate_outfit str req db).1 = db).
Proof.
  rewrite generate_outfit_run. unfold fetched.
  destruct (get_documents _ _ db) as [e|[|it wardrobe]].
  - split; [left; by eexists|done].
  - split; [left; by eexists|done].
  - destruct (assemble str req (it :: wardrobe)) as [[|s selected]|[status_code d|e]] eqn:E.
    + split; [left; by eexists|done].
    + split.
      * right. exists (it :: wardrobe), (s :: selected).
        do 4 (split; [done|]). unfold reply.
        by destruct (create_document _ _ db) as [db' [e|i]].
      * unfold reply. destruct (create_document _ _ db) as [db' [e|i]]; simpl; [|done].
        by intros ?? [= <- _].
    + split; [left; by eexists|done].
    + split; [left; by eexists|done].
Qed.

(** C8. The comprehension that builds a snapshot keeps every attribute of
    the item but ["_id"]. Every item of a returned selection is such a
    snapshot of a fetched item, and the stored [Outfit] holds the same
    list. *)
Theorem snapshot_strips_id (req : OutfitRequest) (db db' : DB) (response : Response) :
  generate_outfit str req db = (db', Ok response) →
  (∀ sel k, snapshot str sel !! k = if decide (k = "_id") then None else sel !! k)
  ∧ (∃ wardrobe, fetched req db = inr wardrobe
       ∧ Forall (λ s, s !! "_id" = None
                      ∧ ∃ x, x ∈ wardrobe ∧ s = snapshot str x
                             ∧ ∀ k, k ≠ "_id" → s !! k = x !! k)
           (response_items response))
  ∧ create_document "outfit" (outfit_doc req (response_items response)) db
    = (db', inr (id response))
  ∧ items (outfit_doc req (response_items response)) = response_items response.
Proof.
  intros Hrun.
  assert (∀ sel k, snapshot str sel !! k = if decide (k = "_id") then None else sel !! k)
    as Hsnap.
  { intros sel k. rewrite snapshot_delete, lookup_delete. by repeat case_decide. }
  split; [done|].
  rewrite generate_outfit_run in Hrun. unfold fetched.
  destruct (get_documents _ _ db) as [e|[|it wardrobe]]; [done..|].
  destruct (assemble str req (it :: wardrobe)) as [[|s selected]|[status_code d|e]] eqn:E;
    [done| |done..].
  unfold reply in Hrun.
  destruct (create_document _ _ db) as [db'' [e|i]] eqn:F; [done|].
  injection Hrun as <- <-. simpl. rewrite F.
  split; [|done]. exists (it :: wardrobe). split; [done|].
  apply assemble_snapshots in E. eapply Forall_impl; [exact E|].
  intros s' (x & Hx & ->). split; [by rewrite Hsnap|].
  exists x. repeat split; [done|]. intros k Hk. rewrite Hsnap. by case_decide.
Qed.

(** C9, amended. The title of a successful call is "Auto outfit - ", the
    mood (or "style" when the mood is missing or the empty text), " / ",
    and the weather (or "weather" when the weather is missing or the empty
    text). With the mood "bold" and no weather it is
    "Auto outfit - bold / weather". *)
Theorem generate_outfit_title (req : OutfitRequest) (db db' : DB) (response : Response) :
  generate_outfit str req db = (db', Ok response) →
  response_title response
  = "Auto outfit - "
    +:+ match mood req with
        | Some m => if String.eqb m "" then "style" else m
        | None => "style"
        end
    +:+ " / "
    +:+ match weather req with
        | Some w => if String.eqb w "" then "weather" else w
        | None => "weather"
        end
  ∧ (mood req = Some "bold" → weather req = None →
     response_title response = "Auto outfit - bold / weather").
Proof.
  intros Hrun. rewrite generate_outfit_run in Hrun.
  destruct (get_documents _ _ db) as [e|[|it wardrobe]]; [done..|].
  destruct (assemble str req (it :: wardrobe)) as [[|s selected]|[status_code d|e]];
    [done| |done..].
  unfold reply in Hrun.
  destruct (create_document _ _ db) as [db'' [e|i]]; [done|].
  injection Hrun as <- <-. simpl. split; [done|].
  by intros -> ->.
Qed.

End claims.


(** The in-memory store after a call: the wardrobe is untouched and at most
    one outfit, with a non-empty selection, has been added. *)
Lemma mem_store_grows_by_one (str : value → string) (req : OutfitRequest) (db : MemDB) :
  wardrobeitem (generate_outfit str req db).1 = wardrobeitem db
  ∧ (outfit (generate_outfit str req db).1 = outfit db
     ∨ ∃ selected, selected ≠ []
         ∧ outfit (generate_outfit str req db).1 = outfit db ++ [outfit_doc req selected]).
Proof.
  rewrite generate_outfit_run.
  destruct (get_documents _ _ db) as [e|[|it wardrobe]]; [by split; [|left]..|].
  destruct (assemble str req (it :: wardrobe)) as [[|s selected]|[status_code d|e]];
    [by split; [|left]| |by split; [|left]..].
  unfold reply. simpl. split; [done|]. right. by exists (s :: selected).
Qed.


(** * Further properties: the readers *)

Lemma expose_id_Some (str : value → string) (d : item) (v : value) :
  d !! "_id" = Some v → expose_id str d = inr (<["id" := VStr (str v)]> (delete "_id" d)).
Proof. intros Hv. unfold expose_id, pop. by rewrite Hv. Qed.

Lemma expose_id_None (str : value → string) (d : item) :
  d !! "_id" = None → expose_id str d = inl (KeyError "_id").
Proof. intros Hv. unfold expose_id, pop. by rewrite Hv. Qed.

Lemma expose_id_exposed (str : value → string) (d : item) (v : value) :
  d !! "_id" = Some v → exposed str d (<["id" := VStr (str v)]> (delete "_id" d)).
Proof.
  intros Hv. split; [|split].
  - by rewrite lookup_insert_ne, lookup_delete_eq.
  - exists v. by rewrite lookup_insert_eq.
  - intros k H1 H2. by rewrite lookup_insert_ne, lookup_delete_ne.
Qed.

Lemma expose_all_Forall2 (str : value → string) (docs acc : list item) :
  Forall (λ d, is_Some (d !! "_id")) docs →
  ∃ result, expose_all str docs acc = inr (acc ++ result)
    ∧ Forall2 (exposed str) docs result.
Proof.
  intros Hall. revert acc. induction Hall as [|d docs [v Hv] _ IH]; intros acc; simpl.
  - exists []. by rewrite app_nil_r.
  - rewrite (expose_id_Some str d v Hv).
    destruct (IH (acc ++ [<["id" := VStr (str v)]> (delete "_id" d)]))
      as (result & -> & Hres).
    exists (<["id" := VStr (str v)]> (delete "_id" d) :: result).
    rewrite <- app_assoc. split; [done|].
    constructor; [by apply expose_id_exposed|done].
Qed.

Lemma expose_all_missing (str : value → string) (docs acc : list item) :
  Exists (λ d, d !! "_id" = None) docs →
  expose_all str docs acc = inl (KeyError "_id").
Proof.
  intros Hex. revert acc. induction Hex as [d docs Hd|d docs _ IH]; intros acc; simpl.
  - by rewrite expose_id_None.
  - destruct (d !! "_id") as [v|] eqn:Hv.
    + rewrite (expose_id_Some str d v Hv). apply IH.
    + by rewrite expose_id_None.
Qed.

Lemma expose_all_inr (str : value → string) (docs acc result : list item) :
  expose_all str docs acc = inr result →
  ∃ r, result = acc ++ r ∧ Forall2 (exposed str) docs r.
Proof.
  revert acc. induction docs as [|d docs IH]; intros acc; simpl.
  - intros [= <-]. exists []. by rewrite app_nil_r.
  - destruct (d !! "_id") as [v|] eqn:Hv.
    + rewrite (expose_id_Some str d v Hv).
      intros (r & -> & Hr)%IH.
      exists (<["id" := VStr (str v)]> (delete "_id" d) :: r).
      rewrite <- app_assoc. split; [done|].
      constructor; [by apply expose_id_exposed|done].
    + by rewrite expose_id_None.
Qed.

Section readers.
Context `{Database DB} (str : value → string).

(** X1. When every stored document of the owner has an ["_id"],
    [list_wardrobe] returns one document per stored document, in the same
    order; each has lost ["_id"], carries the text of that identifier
    under ["id"], and keeps every other attribute. *)
Theorem list_wardrobe_exposes_ids (email : string) (db : DB) (docs : list item) :
  get_documents "wardrobeitem" {[ "owner_email" := VStr email ]} db = inr docs →
  Forall (λ d, is_Some (d !! "_id")) docs →
  ∃ result, list_wardrobe str email db = Ok result
    ∧ Forall2 (exposed str) docs result.
Proof.
  intros Hdocs Hall. unfold list_wardrobe. rewrite Hdocs.
  destruct (expose_all_Forall2 str docs [] Hall) as (result & -> & Hres).
  by exists result.
Qed.

(** X2. One stored document without ["_id"] fails the whole listing: the
    [KeyError] of [pop] becomes a 500 whose detail is the quoted key. *)
Theorem list_wardrobe_missing_id (email : string) (db : DB) (docs : list item) :
  get_documents "wardrobeitem" {[ "owner_email" := VStr email ]} db = inr docs →
  Exists (λ d, d !! "_id" = None) docs →
  list_wardrobe str email db = Raise (HTTPException 500 (Text "'_id'")).
Proof.
  intros Hdocs Hex. unfold list_wardrobe. rewrite Hdocs.
  by rewrite (expose_all_missing str docs [] Hex).
Qed.

(** X3. Every item of a generated outfit is shown by the listing of the
    same owner: it agrees with a listed document on every attribute but
    ["id"]. *)
Theorem outfit_items_are_listed (req : OutfitRequest) (db db' : DB)
    (listing : list item) (response : Response) :
  list_wardrobe str (email req) db = Ok listing →
  generate_outfit str req db = (db', Ok response) →
  Forall (λ s, ∃ l, l ∈ listing ∧ ∀ k, k ≠ "id" → s !! k = l !! k)
    (response_items response).
Proof.
  unfold list_wardrobe. rewrite generate_outfit_run.
  destruct (get_documents _ _ db) as [e|docs] eqn:Hdocs; [done|].
  destruct (expose_all str docs []) as [c|result] eqn:Hall; [done|].
  intros [= <-] Hrun.
  apply expose_all_inr in Hall as (r & -> & Hres). simpl.
  destruct docs as [|it wardrobe]; [done|].
  destruct (assemble str req (it :: wardrobe)) as [[|s selected]|[status_code d|e]] eqn:E;
    [done| |done..].
  unfold reply in Hrun. destruct (create_document _ _ db) as [db'' [e|i]]; [done|].
  injection Hrun as <- <-. simpl.
  apply assemble_snapshots in E. eapply Forall_impl; [exact E|].
  intros s' (x & Hx & ->).
  apply list_elem_of_lookup in Hx as [n Hn].
  destruct (Forall2_lookup_l _ _ _ _ _ Hres Hn) as (l & Hl & Hid & _ & Hkeep).
  exists l. split; [by eapply list_elem_of_lookup_2|].
  intros k Hk. rewrite snapshot_delete.
  destruct (decide (k = "_id")) as [->|Hk'].
  - by rewrite lookup_delete_eq.
  - rewrite lookup_delete_ne by done. symmetry. by apply Hkeep.
Qed.

End readers.

Section profile.
Context `{Database_limit DB} (str : value → string).

(** X4. When the store returns a profile, [get_profile] returns its first
    document without ["_id"]; ["id"] holds the text of the removed
    identifier (or is left as it was when the document had none), and
    every other attribute is kept. *)
Theorem get_profile_renames_id (email : string) (db : DB) (doc : item) (rest : list item) :
  get_documents_limit "userprofile" {[ "email" := VStr email ]} 1 db = inr (doc :: rest) →
  ∃ doc', get_profile str email db = Ok doc'
    ∧ doc' !! "_id" = None
    ∧ doc' !! "id" = match doc !! "_id" with
                     | Some v => Some (VStr (str v))
                     | None => doc !! "id"
                     end
    ∧ ∀ k, k ≠ "_id" → k ≠ "id" → doc' !! k = doc !! k.
Proof.
  intros Hdocs. unfold get_profile. rewrite Hdocs.
  destruct (doc !! "_id") as [v|] eqn:Hv.
  - rewrite bool_decide_eq_true_2 by by eexists.
    rewrite (expose_id_Some str doc v Hv). eexists. split; [done|].
    destruct (expose_id_exposed str doc v Hv) as (Hid & (v' & Hv' & Hnew) & Hkeep).
    rewrite Hv in Hv'. injection Hv' as <-. by repeat split.
  - rewrite bool_decide_eq_false_2 by (by intros [? ?]).
    exists doc. by repeat split.
Qed.

(** X5. [get_profile] fails in two ways only: with the 404 "Profile not
    found" exactly when the store returns no document, and with a 500
    carrying the store's exception exactly when the store raises. A
    document without ["_id"] is not an error. *)
Theorem get_profile_failures (email : string) (db : DB) (r : raised) :
  get_profile str email db = Raise r ↔
  (get_documents_limit "userprofile" {[ "email" := VStr email ]} 1 db = inr []
   ∧ r = HTTPException 404 (Text "Profile not found"))
  ∨ (∃ e, get_documents_limit "userprofile" {[ "email" := VStr email ]} 1 db = inl e
          ∧ r = HTTPException 500 (StrOf e)).
Proof.
  unfold get_profile.
  destruct (get_documents_limit _ _ 1 db) as [e|[|doc rest]] eqn:Hdocs.
  - split; [intros [= <-]; right; by exists e|].
    by intros [[? _]|(e' & [= <-] & ->)].
  - split; [intros [= <-]; by left|].
    by intros [[_ ->]|(e' & ? & _)].
  - split; [|by intros [[? _]|(e' & ? & _)]].
    destruct (doc !! "_id") as [v|] eqn:Hv.
    + rewrite bool_decide_eq_true_2 by by eexists.
      by rewrite (expose_id_Some str doc v Hv).
    + by rewrite bool_decide_eq_false_2 by (by intros [? ?]).
Qed.

End profile.

(** * Further properties: the selector *)

(** ** Categorisation, for any documents *)

Lemma category_readable (it : item) :
  readable (it !! "category") = true →
  str_lower (or_ (get it "category") (VStr "")) = Ok (category_of it).
Proof.
  unfold readable, category_of, get, or_.
  destruct (it !! "category") as [[|s|n|l|o]|]; simpl; try done.
  - by destruct (String.eqb_spec s "") as [->|].
  - by destruct (n =? 0).
  - by destruct l.
Qed.

Lemma category_unreadable (it : item) :
  readable (it !! "category") = false →
  str_lower (or_ (get it "category") (VStr "")) = Raise (Exception AttributeError).
Proof.
  unfold readable, get, or_.
  destruct (it !! "category") as [[|s|n|l|o]|]; simpl; try done.
  - by destruct (n =? 0).
  - by destruct l.
Qed.

Lemma categorize_inv (items : list item) (acc by_cat : gmap string (list item)) :
  categorize acc items = Ok by_cat →
  Forall (λ it, readable (it !! "category") = true) items
  ∧ ∀ cat, default [] (by_cat !! cat) = default [] (acc !! cat) ++ bucket items cat.
Proof.
  revert acc. induction items as [|it rest IH]; intros acc; simpl.
  - intros [= <-]. split; [constructor|]. intros cat. by rewrite app_nil_r.
  - destruct (readable (it !! "category")) eqn:Hr.
    + rewrite category_readable by done. simpl.
      intros [Hrest Hb]%IH. split; [by constructor|].
      intros cat. rewrite Hb. unfold bucket.
      destruct (decide (category_of it = cat)) as [<-|Hne].
      * rewrite lookup_insert_eq, filter_cons_True by done. simpl.
        by rewrite <- app_assoc.
      * by rewrite lookup_insert_ne, filter_cons_False.
    + by rewrite category_unreadable.
Qed.

Lemma categorize_stored (items : list item) (acc by_cat : gmap string (list item)) :
  (∀ cat l, acc !! cat = Some l → l ≠ []) →
  categorize acc items = Ok by_cat →
  ∀ cat l, by_cat !! cat = Some l → l ≠ [].
Proof.
  revert acc. induction items as [|it rest IH]; intros acc Hacc; simpl.
  - by intros [= <-].
  - destruct (str_lower _) as [c|]; simpl; [|done].
    apply IH. intros cat l. destruct (decide (c = cat)) as [<-|Hne].
    + rewrite lookup_insert_eq. intros [= <-]. by intros [_ ?]%app_eq_nil.
    + rewrite lookup_insert_ne by done. apply Hacc.
Qed.

Lemma categorize_raises (items : list item) (acc : gmap string (list item)) :
  Exists (λ it, readable (it !! "category") = false) items →
  categorize acc items = Raise (Exception AttributeError).
Proof.
  intros Hex. revert acc. induction Hex as [it rest Hit|it rest _ IH]; intros acc; simpl.
  - by rewrite category_unreadable.
  - destruct (readable (it !! "category")) eqn:Hr.
    + rewrite category_readable by done. simpl. apply IH.
    + by rewrite category_unreadable.
Qed.

(** X12. When the loop of lines 154-157 ends, [by_cat.get(cat, [])] is the
    list of the items whose lower-cased category is [cat], in wardrobe
    order; a missing, [None] or empty category files the item under the
    empty label; labels without an item have no entry; and every document
    had a category that could be lower-cased. *)
Theorem categorize_groups (items : list item) (by_cat : gmap string (list item)) :
  categorize ∅ items = Ok by_cat →
  (∀ cat, default [] (by_cat !! cat) = bucket items cat)
  ∧ (∀ cat, by_cat !! cat = None ↔ bucket items cat = [])
  ∧ (∀ it, it ∈ items →
       it !! "category" = None ∨ it !! "category" = Some VNone
       ∨ it !! "category" = Some (VStr "") → it ∈ bucket items "")
  ∧ Forall (λ it, readable (it !! "category") = true) items.
Proof.
  intros Hc. destruct (categorize_inv _ _ _ Hc) as [Hr Hb].
  assert (∀ cat, default [] (by_cat !! cat) = bucket items cat) as Hb'.
  { intros cat. by rewrite Hb, lookup_empty. }
  split; [done|]. split; [|split; [|done]].
  - intros cat. rewrite <- Hb'. split; [by intros ->|].
    destruct (by_cat !! cat) as [l|] eqn:E; [|done]. simpl. intros ->.
    by destruct (categorize_stored items ∅ by_cat (λ c l, ltac:(by rewrite lookup_empty))
                   Hc cat [] E).
  - intros it Hit Hcat. unfold bucket. apply list_elem_of_filter. split; [|done].
    unfold category_of. by destruct Hcat as [->|[->| ->]]; simpl; rewrite lower_empty.
Qed.

(** ** [pick_from], for any documents *)

(** X6. [pick_from] never invents an item: what it returns is a member of
    the bucket it was given, and it returns nothing only for the empty
    bucket. *)
Theorem pick_from_member (req : OutfitRequest) (cat_list : list item) (o : option item) :
  pick_from req cat_list = Ok o →
  match o with
  | Some x => x ∈ cat_list
  | None => cat_list = []
  end.
Proof.
  destruct o as [x|]; [apply pick_from_elem|].
  unfold pick_from. case_bool_decide; [done|].
  destruct (mood_bias req cat_list) as [[y|]|]; simpl; [done| |done].
  destruct (weather_bias req cat_list) as [[y|]|]; simpl; [done| |done].
  by destruct cat_list.
Qed.

Lemma lower_empty_iff (s : string) : lower s = "" ↔ s = "".
Proof. split; [apply lower_nonempty|]. intros ->. apply lower_empty. Qed.

Lemma truthy_str_lower (m1 m2 : option string) :
  lower <$> m1 = lower <$> m2 →
  truthy_str m1 = truthy_str m2 ∧ lower (default "" m1) = lower (default "" m2).
Proof.
  destruct m1 as [s1|], m2 as [s2|]; simpl; try done.
  intros [= Hl]. split; [|done].
  destruct (String.eqb_spec s1 "") as [->|H1], (String.eqb_spec s2 "") as [->|H2];
    try done.
  - rewrite lower_empty in Hl. symmetry in Hl.
    apply (proj1 (lower_empty_iff s2)) in Hl. by destruct H2.
  - rewrite lower_empty in Hl. apply (proj1 (lower_empty_iff s1)) in Hl. by destruct H1.
Qed.

Lemma pick_from_case (r1 r2 : OutfitRequest) (cat_list : list item) :
  lower <$> mood r1 = lower <$> mood r2 →
  lower <$> weather r1 = lower <$> weather r2 →
  pick_from r1 cat_list = pick_from r2 cat_list.
Proof.
  intros [Hm1 Hm2]%truthy_str_lower [Hw1 Hw2]%truthy_str_lower.
  unfold pick_from, mood_bias, weather_bias. by rewrite Hm1, Hm2, Hw1, Hw2.
Qed.

Lemma slots_case (str : value → string) (r1 r2 : OutfitRequest)
    (by_cat : gmap string (list item)) (cats : list string) (selected : list item) :
  lower <$> mood r1 = lower <$> mood r2 →
  lower <$> weather r1 = lower <$> weather r2 →
  slots str r1 by_cat cats selected = slots str r2 by_cat cats selected.
Proof.
  intros Hm Hw. revert selected. induction cats as [|cat cats IH]; intros selected;
    simpl; [done|].
  rewrite (pick_from_case r1 r2) by done.
  destruct (pick_from r2 _); simpl; [apply IH|done].
Qed.

(** X8. The selection depends on the request only through its lower-cased
    mood and weather: two requests that agree on those (whatever their
    email and event) select the same items from the same wardrobe. *)
Theorem selection_ignores_case (str : value → string) (r1 r2 : OutfitRequest)
    (items : list item) :
  lower <$> mood r1 = lower <$> mood r2 →
  lower <$> weather r1 = lower <$> weather r2 →
  assemble str r1 items = assemble str r2 items.
Proof.
  intros Hm Hw. unfold assemble.
  destruct (categorize ∅ items) as [by_cat|]; cbn -[slots outerwear]; [|done].
  rewrite (slots_case str r1 r2) by done.
  destruct (slots str r2 by_cat _ []) as [s|]; cbn -[slots outerwear]; [|done].
  unfold outerwear. rewrite (pick_from_case r1 r2) by done.
  destruct (truthy_str_lower _ _ Hw) as [-> ->]. done.
Qed.

(** ** The shape of a selection *)

Lemma category_snapshot (str : value → string) (x : item) :
  category_of (snapshot str x) = category_of x.
Proof.
  rewrite snapshot_delete. unfold category_of. by rewrite lookup_delete_ne.
Qed.

Lemma slot_pick (str : value → string) (req : OutfitRequest) (items selected : list item)
    (cat : string) (sel : option item) :
  cat ≠ "" →
  pick_from req (bucket items cat) = Ok sel →
  ∃ new, (if truthy_pick sel then selected ++ [snapshot str (default ∅ sel)] else selected)
         = selected ++ new
    ∧ category_of <$> new `sublist_of` [cat].
Proof.
  intros Hc Hp. destruct sel as [x|]; simpl.
  - apply pick_from_elem, bucket_category in Hp as [_ Hx].
    rewrite bool_decide_eq_false_2 by (apply category_nonempty; by rewrite Hx).
    exists [snapshot str x]. split; [done|]. simpl.
    by rewrite category_snapshot, Hx.
  - exists []. split; [by rewrite app_nil_r|]. apply sublist_nil_l.
Qed.

Lemma slots_categories (str : value → string) (req : OutfitRequest) (items : list item)
    (by_cat : gmap string (list item)) (cats : list string) (selected r : list item) :
  (∀ cat, default [] (by_cat !! cat) = bucket items cat) →
  "" ∉ cats →
  slots str req by_cat cats selected = Ok r →
  ∃ new, r = selected ++ new ∧ category_of <$> new `sublist_of` cats.
Proof.
  intros Hb. revert selected. induction cats as [|cat cats IH]; intros selected Hc; simpl.
  - intros [= <-]. exists []. by rewrite app_nil_r.
  - apply not_elem_of_cons in Hc as [Hcat Hc]. rewrite Hb.
    destruct (pick_from req (bucket items cat)) as [sel|] eqn:Hp; simpl; [|done].
    destruct (slot_pick str req items selected cat sel) as (n1 & -> & S1); [done..|].
    intros (n2 & -> & S2)%IH; [|done].
    exists (n1 ++ n2). rewrite <- app_assoc. split; [done|].
    rewrite fmap_app. by apply (sublist_app _ [cat]).
Qed.

Lemma assemble_categories (str : value → string) (req : OutfitRequest)
    (items selected : list item) :
  assemble str req items = Ok selected →
  category_of <$> selected
    `sublist_of` (if is_cold (weather req) then slot_labels
                  else ["top"; "bottom"; "footwear"]).
Proof.
  unfold assemble.
  destruct (categorize ∅ items) as [by_cat|] eqn:Hc; cbn -[slots outerwear]; [|done].
  apply categorize_inv in Hc as [_ Hb].
  assert (∀ cat, default [] (by_cat !! cat) = bucket items cat) as Hb'.
  { intros cat. by rewrite Hb, lookup_empty. }
  destruct (slots str req by_cat ["top"; "bottom"; "footwear"] []) as [s1|] eqn:Hs;
    cbn -[slots outerwear]; [|done].
  apply (slots_categories str req items) in Hs as (n1 & -> & S1); [|done|].
  2:{ rewrite !not_elem_of_cons. repeat split; try done. apply not_elem_of_nil. }
  simpl. unfold outerwear. rewrite cold_guard, Hb'.
  destruct (is_cold (weather req)).
  - destruct (pick_from req (bucket items "outerwear")) as [o|] eqn:Ho; simpl; [|done].
    destruct (slot_pick str req items n1 "outerwear" o) as (n4 & -> & S4); [done..|].
    intros [= <-]. rewrite fmap_app.
    by apply (sublist_app _ ["top"; "bottom"; "footwear"] _ ["outerwear"]).
  - by intros [= <-].
Qed.

(** The pure part of the handler raises no [HTTPException]. *)
Lemma no_http_bind {A B} (m : res A) (f : A → res B) :
  no_http m → (∀ a, no_http (f a)) → no_http (m ≫= f).
Proof.
  intros Hm Hf. destruct m as [a|r]; simpl; [apply Hf|].
  intros s d [= ->]. by eapply Hm.
Qed.

Lemma no_http_Ok {A} (a : A) : no_http (Ok a).
Proof. by intros s d. Qed.

Lemma no_http_exn {A} (e : exn) : no_http (Raise (A := A) (Exception e)).
Proof. by intros s d. Qed.

Ltac solve_no_http :=
  repeat first
    [ apply no_http_Ok | apply no_http_exn
    | apply no_http_bind; [|intros ?]
    | match goal with
      | |- no_http (if ?b then _ else _) => destruct b
      | |- no_http (match ?x with _ => _ end) => destruct x
      end ].

Lemma no_http_comprehension {A} (p : A → res bool) (l : list A) :
  (∀ x, no_http (p x)) → no_http (comprehension p l).
Proof. intros Hp. induction l; simpl; solve_no_http; auto. Qed.

Lemma no_http_insort {A} (x : value * A) (l : list (value * A)) : no_http (insort x l).
Proof.
  induction l as [|y l IH]; simpl; [solve_no_http|].
  unfold lt. destruct y.1, x.1; simpl; solve_no_http; auto.
Qed.

Lemma no_http_sort_keyed {A} (l : list (value * A)) : no_http (sort_keyed l).
Proof.
  induction l; simpl; [solve_no_http|].
  apply no_http_bind; [done|]. intros s. apply no_http_insort.
Qed.

Lemma no_http_sorted {A} (l : list A) (key : A → res value) :
  (∀ x, no_http (key x)) → no_http (sorted l key).
Proof.
  intros Hk. unfold sorted. apply no_http_bind.
  - induction l; simpl; [solve_no_http|]. solve_no_http; auto.
  - intros ks. apply no_http_bind; [apply no_http_sort_keyed|]. intros. solve_no_http.
Qed.

Lemma no_http_pick_from (req : OutfitRequest) (l : list item) : no_http (pick_from req l).
Proof.
  unfold pick_from, mood_bias, weather_bias. case_bool_decide; [solve_no_http|].
  apply no_http_bind.
  - destruct (truthy_str (mood req)); [|solve_no_http].
    apply no_http_bind; [|intros; solve_no_http].
    apply no_http_comprehension. intros i. unfold mood_match, str_lower, iter.
    solve_no_http.
  - intros [y|]; [solve_no_http|]. apply no_http_bind.
    + destruct (truthy_str (weather req)); [|solve_no_http].
      repeat case_bool_decide; [| |solve_no_http].
      * apply no_http_bind; [|intros s; unfold first; solve_no_http].
        apply no_http_sorted. intros x. unfold neg. solve_no_http.
      * apply no_http_bind; [|intros s; unfold first; solve_no_http].
        apply no_http_sorted. intros x. solve_no_http.
    + intros [y|]; [solve_no_http|]. unfold first. solve_no_http.
Qed.


(** Accessories and unlabelled items do not take part. *)
Lemma bucket_slots (items : list item) (cat : string) :
  cat ∈ slot_labels →
  bucket (filter (λ i, category_of i ∈ slot_labels) items) cat = bucket items cat.
Proof.
  intros Hc. unfold bucket. induction items as [|it rest IH]; [done|].
  destruct (decide (category_of it = cat)) as [Heq|Hne].
  - rewrite (filter_cons_True (λ i, category_of i ∈ slot_labels)) by by rewrite Heq.
    by rewrite !(filter_cons_True (λ i, category_of i = cat)), IH by done.
  - rewrite (filter_cons_False (λ i, category_of i = cat) it rest) by done.
    rewrite <- IH. destruct (decide (category_of it ∈ slot_labels)).
    + rewrite (filter_cons_True (λ i, category_of i ∈ slot_labels)) by done.
      by rewrite filter_cons_False.
    + by rewrite (filter_cons_False (λ i, category_of i ∈ slot_labels)).
Qed.

(** X13. On a wardrobe of items, the documents filed under another label
    than top, bottom, footwear and outerwear (accessories, unlabelled
    items) have no influence: the selection is the one made from the
    wardrobe without them. *)
Theorem selection_ignores_other_labels (str : value → string) (req : OutfitRequest)
    (items : list item) :
  Forall (λ i, Wardrobeitem_ok i = true) items →
  assemble str req items
  = assemble str req (filter (λ i, category_of i ∈ slot_labels) items).
Proof.
  intros Hok. rewrite !assemble_picks.
  - unfold picks. by rewrite !bucket_slots by (unfold slot_labels; repeat constructor).
  - rewrite !Forall_forall in *. intros x [_ Hx]%list_elem_of_filter. by apply Hok.
  - done.
Qed.

(** ** The outcomes of [generate_outfit] *)

Section outcomes.
Context `{Database DB} (str : value → string).

(** X7. A returned selection holds at most one item per slot, in the
    order top, bottom, footwear, outerwear: the lower-cased categories of
    its items form a sublist of those labels, without outerwear unless
    the weather is cold or chilly. In particular it has at most four
    items. *)
Theorem selection_slots (req : OutfitRequest) (db db' : DB) (response : Response) :
  generate_outfit str req db = (db', Ok response) →
  category_of <$> response_items response
    `sublist_of` (if is_cold (weather req) then slot_labels
                  else ["top"; "bottom"; "footwear"])
  ∧ (List.length (response_items response) ≤ 4)%nat.
Proof.
  rewrite generate_outfit_run.
  destruct (get_documents _ _ db) as [e|[|it wardrobe]]; [done..|].
  destruct (assemble str req (it :: wardrobe)) as [[|s selected]|[status_code d|e]] eqn:E;
    [done| |done..].
  unfold reply. destruct (create_document _ _ db) as [db'' [e|i]]; [done|].
  intros [= <- <-]. simpl response_items.
  apply assemble_categories in E. split; [done|].
  apply sublist_length in E. rewrite length_fmap in E.
  etrans; [exact E|]. by destruct (is_cold _); simpl; lia.
Qed.


(** X10. One fetched document whose category is neither text nor falsy (a
    non-zero number, a non-empty list, an identifier) fails the whole
    request with a 500 for the [AttributeError] of [.lower()], whatever
    the request and even if the item would never be picked; nothing is
    stored. *)
Theorem unreadable_category_fails (req : OutfitRequest) (db : DB) (wardrobe : list item) :
  fetched req db = inr wardrobe →
  Exists (λ it, readable (it !! "category") = false) wardrobe →
  generate_outfit str req db = (db, Raise (HTTPException 500 (StrOf AttributeError))).
Proof.
  intros Hf Hex. rewrite generate_outfit_run. unfold fetched in Hf. rewrite Hf.
  destruct wardrobe as [|it wardrobe]; [by apply Exists_nil in Hex|].
  unfold assemble. by rewrite (categorize_raises _ _ Hex).
Qed.

End outcomes.

(** ** Malformed documents *)

Lemma comprehension_raises {A} (p : A → res bool) (l : list A) :
  Exists (λ x, ∃ r, p x = Raise r) l → ∃ r, comprehension p l = Raise r.
Proof.
  induction 1 as [x l [r Hx]|x l _ [r IH]]; simpl.
  - rewrite Hx. by exists r.
  - destruct (p x) as [b|r']; simpl; [|by exists r'].
    rewrite IH. by exists r.
Qed.

(** X14. With a non-empty mood, the comprehension of line 165 looks at
    every item of the bucket before anything is returned: one item whose
    colour is neither text nor falsy makes [pick_from] fail, even when an
    item placed before it matches the mood. *)
Theorem pick_from_unreadable_color (req : OutfitRequest) (cat_list : list item) :
  truthy_str (mood req) = true →
  Exists (λ i, readable (i !! "color") = false) cat_list →
  ∃ e, pick_from req cat_list = Raise (Exception e).
Proof.
  intros Hm Hex.
  assert (∃ r, pick_from req cat_list = Raise r) as [r Hr].
  { unfold pick_from. rewrite bool_decide_eq_false_2 by (by intros ->; apply Exists_nil in Hex).
    unfold mood_bias. rewrite Hm.
    destruct (comprehension_raises (mood_match (lower (default "" (mood req)))) cat_list)
      as [r ->]; [|by exists r].
    eapply Exists_impl; [exact Hex|]. intros i Hi. simpl in Hi.
    exists (Exception AttributeError). unfold mood_match, readable, get, or_ in *.
    destruct (i !! "color") as [[|s|n|l|o]|]; simpl in *; try done.
    - by destruct (n =? 0).
    - by destruct l. }
  destruct r as [status_code d|e]; [|by exists e].
  by destruct (no_http_pick_from req cat_list status_code d).
Qed.

(** X15. Without a mood (missing or empty) and without a recognised
    weather, [pick_from] reads no attribute: it returns the first item of
    the bucket for any documents, and nothing for the empty bucket. *)
Theorem pick_from_no_signal (req : OutfitRequest) (cat_list : list item) :
  truthy_str (mood req) = false →
  is_cold (weather req) = false → is_hot (weather req) = false →
  pick_from req cat_list = Ok (head cat_list).
Proof.
  intros Hm Hc Hh. unfold pick_from, mood_bias, weather_bias. rewrite Hm.
  case_bool_decide as Hnil; [by subst|]. simpl.
  rewrite <- cold_guard in Hc. rewrite <- hot_guard in Hh.
  destruct (truthy_str (weather req)); simpl in *.
  - rewrite Hc, Hh. simpl. by destruct cat_list.
  - by destruct cat_list.
Qed.

Lemma keys_raise {A} (key : A → res value) (l : list A) :
  (∀ x, key x = Raise (Exception TypeError) ∨ ∃ k, key x = Ok k) →
  Exists (λ x, key x = Raise (Exception TypeError)) l →
  sorted l key = Raise (Exception TypeError).
Proof.
  intros Hkey Hex. unfold sorted.
  assert (mapM (λ x, k ← key x; Ok (k, x)) l = Raise (Exception TypeError)) as ->; [|done].
  induction Hex as [x l Hx|x l _ IH]; simpl.
  - by rewrite Hx.
  - destruct (Hkey x) as [->|[k ->]]; simpl; [done|]. by rewrite IH.
Qed.

(** X16. In cold or chilly weather and without a mood, the sort key
    negates the warmth of every item of the bucket: one item whose warmth
    is a non-empty text, a non-empty list or an identifier makes
    [pick_from] fail with a [TypeError], wherever the item stands. *)
Theorem pick_from_cold_unreadable_warmth (req : OutfitRequest) (cat_list : list item) :
  truthy_str (mood req) = false →
  is_cold (weather req) = true →
  Exists (λ i, unary_minus_fails (i !! "warmth") = true) cat_list →
  pick_from req cat_list = Raise (Exception TypeError).
Proof.
  intros Hm Hc Hex. unfold pick_from, mood_bias, weather_bias. rewrite Hm.
  rewrite bool_decide_eq_false_2 by (by intros ->; apply Exists_nil in Hex). simpl.
  rewrite <- cold_guard in Hc. apply andb_true_iff in Hc as [-> ->].
  rewrite keys_raise; [done| |].
  - intros x. unfold neg, or_, get.
    destruct (x !! "warmth") as [[|s|n|l|o]|]; simpl; eauto.
    + destruct (String.eqb s ""); simpl; eauto.
    + destruct (n =? 0); simpl; eauto.
    + destruct l; simpl; eauto.
  - eapply Exists_impl; [exact Hex|]. intros i. unfold unary_minus_fails, neg, or_, get.
    destruct (i !! "warmth") as [[|s|n|l|o]|]; simpl; try done.
    + by destruct (String.eqb s "").
    + by destruct l.
Qed.

End properties.

(** * The properties on the example wardrobe

    Unless said otherwise the examples hold ASCII text, on which
    [str.lower] is [ascii_lower]. *)

Existing Instance ascii_lower.

(** The mood "feeling blue today" picks the blue shirt, placed second,
    although the weather is cold; and with a [lower] that knows the
    Latin-1 letters the mood "ÉCRU" picks the écru shirt. *)
Lemma pick_from_precedence_witness :
  [red_tee; blue_shirt] ≠ []
  ∧ Forall (λ i, Wardrobeitem_ok i = true) [red_tee; blue_shirt]
  ∧ pick_from (request (Some "feeling blue today") (Some "cold")) [red_tee; blue_shirt]
    = Ok (Some blue_shirt)
  ∧ pick_from (H := latin_lower) (request (Some "ÉCRU") None) [red_tee; ecru_shirt]
    = Ok (Some ecru_shirt).
Proof.
  split; [discriminate|]. split; [by repeat constructor|]. split.
  - destruct (pick_from_precedence
      (request (Some "feeling blue today") (Some "cold")) [red_tee; blue_shirt])
      as (Hmood & _ & _); [discriminate|by repeat constructor|].
    apply (Hmood [red_tee] blue_shirt []); [reflexivity..|].
    by repeat constructor.
  - destruct (pick_from_precedence (H := latin_lower)
      (request (Some "ÉCRU") None) [red_tee; ecru_shirt])
      as (Hmood & _ & _); [discriminate|by repeat constructor|].
    apply (Hmood [red_tee] ecru_shirt []); [reflexivity..|].
    by repeat constructor.
Defined.

(** With an empty mood the request carries a mood and the vest, which has
    no colour, is the first mood match for the empty text; [pick_from]
    still applies the weather rule and returns the warmer shirt. *)
Lemma pick_from_empty_mood :
  ¬ (∀ (req : OutfitRequest) (cat_list : list item) (m : string) pre x post,
       cat_list ≠ [] →
       Forall (λ i, Wardrobeitem_ok i = true) cat_list →
       mood req = Some m →
       cat_list = pre ++ x :: post →
       is_mood_match (lower m) x = true →
       Forall (λ y, is_mood_match (lower m) y = false) pre →
       pick_from req cat_list = Ok (Some x)).
Proof.
  intros Hclaim.
  specialize (Hclaim (request (Some "") (Some "cold")) [blue_shirt; plain_vest] ""
    [blue_shirt] plain_vest []).
  assert (pick_from (request (Some "") (Some "cold")) [blue_shirt; plain_vest]
          = Ok (Some blue_shirt)) as Hrun by reflexivity.
  rewrite Hrun in Hclaim.
  assert (Ok (Some blue_shirt) = Ok (Some plain_vest)) as Heq.
  { apply Hclaim; [discriminate|by repeat constructor|reflexivity..|by repeat constructor]. }
  apply (f_equal (λ r : res (option item),
    match r with Ok (Some d) => d !! "name" | _ => None end)) in Heq.
  vm_compute in Heq. discriminate.
Qed.

(** The spec's bucket of warmth 2, 8 and 5: cold weather picks the shirt,
    warm weather the tee. *)
Lemma pick_from_weather_witness :
  [red_tee; blue_shirt; plain_vest] ≠ []
  ∧ Forall (λ i, Wardrobeitem_ok i = true) [red_tee; blue_shirt; plain_vest]
  ∧ truthy_str (mood (request None (Some "Cold"))) = false
  ∧ is_cold (weather (request None (Some "Cold"))) = true
  ∧ ∃ pre x post, [red_tee; blue_shirt; plain_vest] = pre ++ x :: post
      ∧ pick_from (request None (Some "Cold")) [red_tee; blue_shirt; plain_vest]
        = Ok (Some x)
      ∧ Forall (λ y, warmth_of y < warmth_of x) pre
      ∧ Forall (λ y, warmth_of y ≤ warmth_of x) post.
Proof.
  split; [discriminate|]. split; [by repeat constructor|]. do 2 (split; [reflexivity|]).
  destruct (pick_from_weather (request None (Some "Cold")) [red_tee; blue_shirt; plain_vest])
    as (Hcold & _ & _); [discriminate|by repeat constructor|by left|].
  apply Hcold. reflexivity.
Defined.

(** The vest has no colour: it matches the mood "bold". *)
Lemma empty_color_is_mood_match_witness :
  plain_vest !! "color" = None
  ∧ mood_match (lower "bold") plain_vest = Ok true
  ∧ ∃ pre x post, [red_tee; plain_vest; blue_shirt] = pre ++ x :: post
      ∧ (plain_vest ∉ pre)
      ∧ is_mood_match (lower "bold") x = true
      ∧ Forall (λ y, is_mood_match (lower "bold") y = false) pre
      ∧ ∀ w, pick_from {| email := ana; mood := Some "bold";
                          weather := w; event := None |}
               [red_tee; plain_vest; blue_shirt]
             = Ok (Some x).
Proof.
  split; [reflexivity|].
  apply (empty_color_is_mood_match (request (Some "bold") None)
    [red_tee; plain_vest; blue_shirt] "bold" plain_vest);
    [reflexivity|discriminate|by repeat constructor| |by left].
  right. left.
Defined.

(** The shirt matches the mood "blue" by its colour and is picked, not the
    vest, the first item without a colour; and with the empty mood the
    weather rule is reached: the tee, the coolest, is picked although the
    vest comes first. *)
Lemma empty_color_not_picked :
  blue_shirt !! "color" = Some (VStr "Blue") ∧ tags_of blue_shirt = []
  ∧ plain_vest !! "color" = None
  ∧ pick_from (request (Some "blue") (Some "cold")) [blue_shirt; plain_vest]
    = Ok (Some blue_shirt)
  ∧ blue_shirt ≠ plain_vest
  ∧ pick_from (request (Some "") (Some "hot")) [plain_vest; red_tee] = Ok (Some red_tee)
  ∧ red_tee ≠ plain_vest.
Proof.
  do 4 (split; [reflexivity|]).
  split; [|split; [reflexivity|]].
  - intros Heq. apply (f_equal (λ d : item, d !! "name")) in Heq.
    vm_compute in Heq. discriminate.
  - intros Heq. apply (f_equal (λ d : item, d !! "name")) in Heq.
    vm_compute in Heq. discriminate.
Qed.

(** On the example closet, with no mood and no weather. *)
Lemma generate_outfit_nonempty_witness :
  fetched (request None None) closet = inr (wardrobeitem closet)
  ∧ Forall (λ i, Wardrobeitem_ok i = true) (wardrobeitem closet)
  ∧ bucket (wardrobeitem closet) "top" ≠ []
  ∧ ∃ selected, selected ≠ []
      ∧ assemble str_text (request None None) (wardrobeitem closet) = Ok selected
      ∧ match create_document "outfit" (outfit_doc (request None None) selected) closet with
        | (db', inr inserted_id) =>
            generate_outfit str_text (request None None) closet
            = (db', Ok {| id := inserted_id;
                          response_items := selected;
                          response_title := title (outfit_doc (request None None) selected) |})
        | (db', inl e) =>
            generate_outfit str_text (request None None) closet
            = (db', Raise (HTTPException 500 (StrOf e)))
        end.
Proof.
  assert (bucket (wardrobeitem closet) "top" ≠ []) as Htop.
  { intros Heq. apply (f_equal List.length) in Heq. vm_compute in Heq. discriminate. }
  split; [reflexivity|]. split; [by repeat constructor|]. split; [exact Htop|].
  apply (generate_outfit_nonempty str_text (request None None) closet);
    [reflexivity|by repeat constructor|by left].
Defined.

Lemma generate_outfit_no_items_witness :
  fetched (request (Some "bold") (Some "cold")) bare = inr []
  ∧ generate_outfit str_text (request (Some "bold") (Some "cold")) bare
    = (bare, Raise (HTTPException 404 (Text "No wardrobe items found"))).
Proof.
  split; [reflexivity|].
  apply (generate_outfit_no_items str_text). reflexivity.
Defined.

(** A wardrobe of one scarf, in warm weather. *)
Lemma generate_outfit_empty_selection_witness :
  fetched (request None (Some "warm")) accessories = inr [scarf]
  ∧ bucket [scarf] "top" = [] ∧ bucket [scarf] "bottom" = []
  ∧ bucket [scarf] "footwear" = []
  ∧ is_cold (Some "warm") = false
  ∧ generate_outfit str_text (request None (Some "warm")) accessories
    = (accessories,
       Raise (HTTPException 400 (Text "Could not compose an outfit from wardrobe"))).
Proof.
  do 4 (split; [reflexivity|]). split; [reflexivity|].
  apply (generate_outfit_empty_selection str_text (request None (Some "warm")) accessories
    [scarf]); [reflexivity|discriminate|].
  right. split; [by repeat constructor|]. do 3 (split; [reflexivity|]). by left.
Defined.

(** The slots of the example closet in chilly weather. *)
Lemma assemble_slots_witness :
  Forall (λ i, Wardrobeitem_ok i = true) (wardrobeitem closet)
  ∧ ∃ top bottom footwear outer,
      pick_from (request None (Some "Chilly")) (bucket (wardrobeitem closet) "top") = Ok top
      ∧ pick_from (request None (Some "Chilly")) (bucket (wardrobeitem closet) "bottom")
        = Ok bottom
      ∧ pick_from (request None (Some "Chilly")) (bucket (wardrobeitem closet) "footwear")
        = Ok footwear
      ∧ pick_from (request None (Some "Chilly")) (bucket (wardrobeitem closet) "outerwear")
        = Ok outer
      ∧ pick_from (request None (Some "Chilly")) [] = Ok None
      ∧ assemble str_text (request None (Some "Chilly")) (wardrobeitem closet)
        = Ok (snapshot str_text <$>
                option_list top ++ option_list bottom ++ option_list footwear
                ++ (if is_cold (Some "Chilly") then option_list outer else []))
      ∧ (is_cold (Some "Chilly") = false →
         ∀ selected,
           assemble str_text (request None (Some "Chilly")) (wardrobeitem closet)
           = Ok selected →
           Forall (λ s, category_of s ≠ "outerwear") selected).
Proof.
  split; [by repeat constructor|].
  apply (assemble_slots str_text (request None (Some "Chilly")) (wardrobeitem closet)).
  by repeat constructor.
Defined.

(** The answer for a blue mood in the cold carries no ["_id"]. *)
Lemma snapshot_strips_id_witness :
  generate_outfit str_text blue_cold closet
  = (stored blue_cold (response_items blue_cold_response), Ok blue_cold_response)
  ∧ Forall (λ s : item, s !! "_id" = None) (response_items blue_cold_response)
  ∧ create_document "outfit" (outfit_doc blue_cold (response_items blue_cold_response)) closet
    = (stored blue_cold (response_items blue_cold_response), inr (id blue_cold_response)).
Proof.
  assert (generate_outfit str_text blue_cold closet
          = (stored blue_cold (response_items blue_cold_response), Ok blue_cold_response))
    as Hrun by (vm_compute; reflexivity).
  split; [exact Hrun|].
  destruct (snapshot_strips_id str_text _ _ _ _ Hrun) as (_ & (wardrobe & _ & Hs) & Hc & _).
  split; [|exact Hc].
  eapply Forall_impl; [exact Hs|]. by intros s [Hid _].
Defined.

Lemma generate_outfit_title_witness :
  generate_outfit str_text bold closet
  = (stored bold (response_items bold_response), Ok bold_response)
  ∧ mood bold = Some "bold" ∧ weather bold = None
  ∧ response_title bold_response = "Auto outfit - bold / weather".
Proof.
  assert (generate_outfit str_text bold closet
          = (stored bold (response_items bold_response), Ok bold_response))
    as Hrun by (vm_compute; reflexivity).
  split; [exact Hrun|]. do 2 (split; [reflexivity|]).
  by apply (generate_outfit_title str_text _ _ _ _ Hrun).
Defined.

(** An empty mood is supplied, and the title still says "style". *)
Lemma generate_outfit_title_empty_mood :
  mood empty_mood = Some "" ∧ weather empty_mood = None
  ∧ generate_outfit str_text empty_mood closet
    = (stored empty_mood (response_items empty_mood_response), Ok empty_mood_response)
  ∧ response_title empty_mood_response = "Auto outfit - style / weather"
  ∧ response_title empty_mood_response
    ≠ "Auto outfit - " +:+ default "style" (mood empty_mood)
      +:+ " / " +:+ default "weather" (weather empty_mood).
Proof.
  do 2 (split; [reflexivity|]). split; [vm_compute; reflexivity|].
  split; [reflexivity|].
  intros Heq. apply (f_equal String.length) in Heq. vm_compute in Heq. discriminate.
Qed.


(** * Further examples *)

(** The weather tie-breaks of the specification, on warmth 5, 8 and 2: the
    warmest when cold, the coolest when warm, the first otherwise. *)
Example weather_tie_break :
  pick_from (request None (Some "cold")) [plain_vest; blue_shirt; red_tee] = Ok (Some blue_shirt)
  ∧ pick_from (request None (Some "WARM")) [plain_vest; blue_shirt; red_tee] = Ok (Some red_tee)
  ∧ pick_from (request None (Some "rainy")) [plain_vest; blue_shirt; red_tee]
    = Ok (Some plain_vest)
  ∧ pick_from (request None None) [plain_vest; blue_shirt; red_tee] = Ok (Some plain_vest).
Proof. by repeat split. Qed.

(** A colour that is not text makes [.lower()] fail: the handler turns the
    [AttributeError] into a 500 and nothing is stored. *)
Example ill_typed_color :
  pick_from (request (Some "bold") None) [odd_tee] = Raise (Exception AttributeError)
  ∧ generate_outfit str_text (request (Some "bold") None)
      {| wardrobeitem := [odd_tee]; outfit := [] |}
    = ({| wardrobeitem := [odd_tee]; outfit := [] |},
       Raise (HTTPException 500 (StrOf AttributeError))).
Proof. split; vm_compute; reflexivity. Qed.

(** Text beyond ASCII, under a [lower] that knows the Latin-1 letters: the
    mood "ÉCRU" matches the colour "écru", before any weather rule and
    before an item without colour, and the category "ÉTÉ" is filed under
    "été". *)
Example latin_text :
  pick_from (H := latin_lower) (request (Some "ÉCRU") (Some "cold")) [blue_shirt; ecru_shirt]
  = Ok (Some ecru_shirt)
  ∧ pick_from (H := latin_lower) (request (Some "ÉCRU") None) [ecru_shirt; plain_vest]
    = Ok (Some ecru_shirt)
  ∧ bucket (H := latin_lower) [red_tee; summer_hat] "été" = [summer_hat]
  ∧ bucket (H := latin_lower) [red_tee; summer_hat] "ÉTÉ" = [].
Proof. by repeat split. Qed.

(** * The further properties on the examples *)

Lemma list_wardrobe_exposes_ids_witness :
  get_documents "wardrobeitem" {[ "owner_email" := VStr ana ]} closet
  = inr (wardrobeitem closet)
  ∧ Forall (λ d : item, is_Some (d !! "_id")) (wardrobeitem closet)
  ∧ ∃ result, list_wardrobe str_text ana closet = Ok result
      ∧ Forall2 (exposed str_text) (wardrobeitem closet) result.
Proof.
  assert (Forall (λ d : item, is_Some (d !! "_id")) (wardrobeitem closet)) as Hids
    by (repeat constructor; by eexists).
  split; [reflexivity|]. split; [exact Hids|].
  apply (list_wardrobe_exposes_ids str_text ana closet); [reflexivity|exact Hids].
Defined.

Lemma list_wardrobe_missing_id_witness :
  get_documents "wardrobeitem" {[ "owner_email" := VStr ana ]} torn_closet
  = inr (wardrobeitem torn_closet)
  ∧ Exists (λ d : item, d !! "_id" = None) (wardrobeitem torn_closet)
  ∧ list_wardrobe str_text ana torn_closet = Raise (HTTPException 500 (Text "'_id'")).
Proof.
  assert (Exists (λ d : item, d !! "_id" = None) (wardrobeitem torn_closet)) as Hex
    by (right; left; reflexivity).
  split; [reflexivity|]. split; [exact Hex|].
  apply (list_wardrobe_missing_id str_text ana torn_closet (wardrobeitem torn_closet));
    [reflexivity|exact Hex].
Defined.

Lemma outfit_items_are_listed_witness :
  list_wardrobe str_text (email bold) capsule = Ok capsule_listing
  ∧ generate_outfit str_text bold capsule = (capsule_stored, Ok bold_response)
  ∧ Forall (λ s : item, ∃ l, l ∈ capsule_listing ∧ ∀ k, k ≠ "id" → s !! k = l !! k)
      (response_items bold_response).
Proof.
  assert (list_wardrobe str_text (email bold) capsule = Ok capsule_listing) as Hlist
    by (vm_compute; reflexivity).
  assert (generate_outfit str_text bold capsule = (capsule_stored, Ok bold_response))
    as Hrun by (vm_compute; reflexivity).
  split; [exact Hlist|]. split; [exact Hrun|].
  exact (outfit_items_are_listed str_text bold capsule _ capsule_listing bold_response
           Hlist Hrun).
Defined.

Lemma get_profile_renames_id_witness :
  get_documents_limit "userprofile" {[ "email" := VStr ana ]} 1 profiles
  = inr [ana_profile]
  ∧ ∃ doc', get_profile str_text ana profiles = Ok doc'
      ∧ doc' !! "_id" = None
      ∧ doc' !! "id" = match ana_profile !! "_id" with
                       | Some v => Some (VStr (str_text v))
                       | None => ana_profile !! "id"
                       end
      ∧ ∀ k, k ≠ "_id" → k ≠ "id" → doc' !! k = ana_profile !! k.
Proof.
  split; [reflexivity|].
  apply (get_profile_renames_id str_text ana profiles ana_profile []). reflexivity.
Defined.

Lemma pick_from_member_witness :
  pick_from (request None (Some "cold")) [red_tee; blue_shirt] = Ok (Some blue_shirt)
  ∧ blue_shirt ∈ [red_tee; blue_shirt].
Proof.
  assert (pick_from (request None (Some "cold")) [red_tee; blue_shirt]
          = Ok (Some blue_shirt)) as Hpick by reflexivity.
  split; [exact Hpick|].
  exact (pick_from_member _ _ (Some blue_shirt) Hpick).
Defined.

Lemma selection_ignores_case_witness :
  lower <$> mood (request (Some "BLUE") (Some "Cold")) = lower <$> mood blue_cold
  ∧ lower <$> weather (request (Some "BLUE") (Some "Cold")) = lower <$> weather blue_cold
  ∧ assemble str_text (request (Some "BLUE") (Some "Cold")) (wardrobeitem closet)
    = assemble str_text blue_cold (wardrobeitem closet).
Proof.
  do 2 (split; [reflexivity|]).
  apply (selection_ignores_case str_text); reflexivity.
Defined.

Lemma selection_slots_witness :
  generate_outfit str_text blue_cold closet
  = (stored blue_cold (response_items blue_cold_response), Ok blue_cold_response)
  ∧ category_of <$> response_items blue_cold_response `sublist_of` slot_labels
  ∧ (List.length (response_items blue_cold_response) ≤ 4)%nat.
Proof.
  assert (generate_outfit str_text blue_cold closet
          = (stored blue_cold (response_items blue_cold_response), Ok blue_cold_response))
    as Hrun by (vm_compute; reflexivity).
  split; [exact Hrun|].
  exact (selection_slots str_text blue_cold closet _ blue_cold_response Hrun).
Defined.


Lemma unreadable_category_fails_witness :
  fetched bold odd_closet = inr (wardrobeitem odd_closet)
  ∧ Exists (λ it : item, readable (it !! "category") = false) (wardrobeitem odd_closet)
  ∧ generate_outfit str_text bold odd_closet
    = (odd_closet, Raise (HTTPException 500 (StrOf AttributeError))).
Proof.
  assert (Exists (λ it : item, readable (it !! "category") = false)
            (wardrobeitem odd_closet)) as Hex
    by (right; right; left; reflexivity).
  split; [reflexivity|]. split; [exact Hex|].
  apply (unreadable_category_fails str_text bold odd_closet (wardrobeitem odd_closet));
    [reflexivity|exact Hex].
Defined.

Lemma categorize_groups_witness :
  categorize ∅ [red_tee; jeans] = Ok small_by_cat
  ∧ ∀ cat, default [] (small_by_cat !! cat) = bucket [red_tee; jeans] cat.
Proof.
  assert (categorize ∅ [red_tee; jeans] = Ok small_by_cat) as Hc
    by (vm_compute; reflexivity).
  split; [exact Hc|].
  apply (categorize_groups _ _ Hc).
Defined.

Lemma selection_ignores_other_labels_witness :
  Forall (λ i, Wardrobeitem_ok i = true) (wardrobeitem closet)
  ∧ assemble str_text bold (wardrobeitem closet)
    = assemble str_text bold
        (filter (λ i, category_of i ∈ slot_labels) (wardrobeitem closet)).
Proof.
  split; [by repeat constructor|].
  apply (selection_ignores_other_labels str_text bold). by repeat constructor.
Defined.

Lemma pick_from_unreadable_color_witness :
  truthy_str (mood bold) = true
  ∧ Exists (λ i : item, readable (i !! "color") = false) [plain_vest; odd_tee]
  ∧ ∃ e, pick_from bold [plain_vest; odd_tee] = Raise (Exception e).
Proof.
  assert (Exists (λ i : item, readable (i !! "color") = false) [plain_vest; odd_tee])
    as Hex by (right; left; reflexivity).
  split; [reflexivity|]. split; [exact Hex|].
  apply (pick_from_unreadable_color bold); [reflexivity|exact Hex].
Defined.

Lemma pick_from_no_signal_witness :
  truthy_str (mood (request (Some "") (Some "rainy"))) = false
  ∧ pick_from (request (Some "") (Some "rainy")) [odd_tee; cosy_tee] = Ok (Some odd_tee).
Proof.
  split; [reflexivity|].
  apply (pick_from_no_signal (request (Some "") (Some "rainy")) [odd_tee; cosy_tee]);
    reflexivity.
Defined.

Lemma pick_from_cold_unreadable_warmth_witness :
  truthy_str (mood (request None (Some "cold"))) = false
  ∧ is_cold (weather (request None (Some "cold"))) = true
  ∧ Exists (λ i : item, unary_minus_fails (i !! "warmth") = true) [blue_shirt; cosy_tee]
  ∧ pick_from (request None (Some "cold")) [blue_shirt; cosy_tee]
    = Raise (Exception TypeError).
Proof.
  assert (Exists (λ i : item, unary_minus_fails (i !! "warmth") = true) [blue_shirt; cosy_tee])
    as Hex by (right; left; reflexivity).
  do 2 (split; [reflexivity|]). split; [exact Hex|].
  apply (pick_from_cold_unreadable_warmth (request None (Some "cold")));
    [reflexivity..|exact Hex].
Defined.
